(** * stockholm.asn1.ber_decoder: a shallow embedding of the BER header and
    tag decoder, and the properties of its specification.

    The module is Python 2 code: a byte string is a [str], whose characters
    are the octets; [ord] gives an octet's value, integers are unbounded.
    Exceptions are results of an error type. *)

From Stdlib Require Import ZArith List Bool Lia String.
From Stdlib Require Import Strings.Byte.
Import ListNotations.
Local Open Scope Z_scope.
Set Warnings "-register-all".

(** ** Python values *)

(** A Python 2 [str]: a sequence of octets. *)
Definition bytestr := list byte.

Definition ord (c : byte) : Z := Z.of_N (Byte.to_N c).

(** The octet of value [z mod 256] (tests and encoders build buffers with it). *)
Definition chr (z : Z) : byte :=
  match Byte.of_N (Z.to_N (z mod 256)) with
  | Some c => c
  | None => x00
  end.

Definition len {A : Type} (s : list A) : Z := Z.of_nat (List.length s).

(** The exceptions the module can raise. *)
Inductive exn : Type :=
| IndexError      (* a sequence index out of range *)
| TypeError       (* ord() of a string that is not one character long *)
| AttributeError. (* an attribute of None *)

Inductive result (A : Type) : Type :=
| Ok (a : A)
| Raise (e : exn).
Arguments Ok {A} a.
Arguments Raise {A} e.

Definition bind {A B : Type} (m : result A) (k : A -> result B) : result B :=
  match m with
  | Ok a => k a
  | Raise e => Raise e
  end.

Notation "x <- m ;; k" := (bind m (fun x => k))
  (at level 61, m at next level, right associativity).
Notation "' p <- m ;; k" := (bind m (fun x => match x with p => k end))
  (at level 61, p pattern, m at next level, right associativity).

(** [s[i]]: a negative index counts from the end; out of range raises. *)
Definition py_index {A : Type} (s : list A) (i : Z) : result A :=
  let j := if i <? 0 then i + len s else i in
  if (j <? 0) || (len s <=? j) then Raise IndexError
  else match nth_error s (Z.to_nat j) with
       | Some a => Ok a
       | None => Raise IndexError
       end.

(** A slice bound, as Python clamps it. *)
Definition py_clamp (n i : Z) : Z :=
  if i <? 0 then Z.max (i + n) 0 else Z.min i n.

(** [s[a:b]]: bounds are clamped, an empty range gives the empty string. *)
Definition py_slice {A : Type} (s : list A) (a b : Z) : list A :=
  let a' := py_clamp (len s) a in
  let b' := py_clamp (len s) b in
  skipn (Z.to_nat a') (firstn (Z.to_nat b') s).

(** [s[a:]]. *)
Definition py_slice_from {A : Type} (s : list A) (a : Z) : list A :=
  skipn (Z.to_nat (py_clamp (len s) a)) s.

(** [ord(s)] of a string: defined on one-character strings only. *)
Definition ord_str (s : bytestr) : result Z :=
  match s with
  | [c] => Ok (ord c)
  | _ => Raise TypeError
  end.

(** [int(b)] of a boolean. *)
Definition int_of_bool (b : bool) : Z := if b then 1 else 0.

(** ** Module-level functions *)

Definition tag_type_decode (byte_string : bytestr) : result Z :=
  c <- py_index byte_string 0 ;;
  let first_octet := ord c in
  Ok (int_of_bool (Z.land first_octet 32 =? 32)).

(** The [while True] loop of [lvq_decode]. [rest] is [byte_string[size:]], so
    that [byte_string[size:size+1]] is its first character, or the empty
    string when the input is exhausted (and [ord] raises). *)
Fixpoint lvq_decode_loop (rest : bytestr) (values : list Z) (size : Z)
  : result (list Z * Z) :=
  match rest with
  | [] => b <- ord_str [] ;; Ok (values, size)
  | c :: rest' =>
      b <- ord_str [c] ;;
      let size := size + 1 in
      let values := values ++ [Z.land b 127] in
      if Z.land b 128 =? 0 then Ok (values, size)
      else lvq_decode_loop rest' values size
  end.

(** The body of the [for] loop of [lvq_decode]: [i << shift] and [shift - 7]
    are expression statements, their values are dropped. *)
Definition lvq_decode_step (shift : Z) (result i : Z) : Z :=
  let _ := Z.shiftl i shift in
  let result := Z.lor result i in
  let _ := shift - 7 in
  result.

Definition lvq_decode (byte_string : bytestr) : result (Z * Z) :=
  '(values, size) <- lvq_decode_loop byte_string [] 0 ;;
  let shift := 7 * (len values - 1) in
  let result := fold_left (lvq_decode_step shift) values 0 in
  Ok (result, size).

Definition tag_identifier_decode (byte_string : bytestr) : result (Z * Z) :=
  let identifier_octets := 0 in
  c <- py_index byte_string 0 ;;
  let first_octet := ord c in
  '(number, identifier_octets) <-
     (if Z.land first_octet 31 =? 31
      then lvq_decode (py_slice_from byte_string 1)
      else Ok (first_octet - Z.land first_octet 224, identifier_octets)) ;;
  let identifier_octets := identifier_octets + 1 in
  Ok (number, identifier_octets).

(** The [for] loop of [long_format_length_decode], over the characters
    [byte_string[i]], [i] in [range(len(byte_string))]; the state is
    [(length, shift)]. *)
Definition long_format_length_step (st : Z * Z) (c : byte) : Z * Z :=
  let '(length, shift) := st in
  (Z.lor length (Z.shiftl (ord c) shift), shift - 8).

Definition long_format_length_decode (byte_string : bytestr) : Z :=
  let length := 0 in
  let number_of_octets := len byte_string in
  let shift := 8 * (number_of_octets - 1) in
  fst (fold_left long_format_length_step byte_string (length, shift)).

(** [get_bit], for an index that is not negative ([1 << index] raises
    otherwise). *)
Definition get_bit (number index : Z) : Z :=
  int_of_bool (negb (Z.land number (Z.shiftl 1 index) =? 0)).

(** ** class Header *)

Module Header.

Record t : Type := mk {
  type : Z;
  number : Z;
  identifier_octets : Z;
  octets : Z;
  length_octets : Z;
  data_length : Z;
  total_octets : Z;
  extra_data_length : Z
}.

Definition set_total_octets (self : t) : t :=
  mk (type self) (number self) (identifier_octets self) (octets self)
     (length_octets self) (data_length self)
     (octets self + data_length self) (extra_data_length self).

(** [Header.length_decode]: the fields it assigns, branch by branch, then
    [total_octets] from the fields as they are at the end. *)
Definition length_decode (self : t) (byte_string : bytestr) : result t :=
  c <- py_index byte_string (identifier_octets self) ;;
  let first_octet := ord c in
  if first_octet =? 128 then
    let length_octets := 1 in
    let octets := identifier_octets self + length_octets in
    let extra_data_length := len byte_string - octets in
    Ok (set_total_octets
          (mk (type self) (number self) (identifier_octets self) octets
              length_octets (data_length self) (total_octets self)
              extra_data_length))
  else if Z.land first_octet 128 =? 128 then
    let number_of_extra_length_octets := first_octet - 128 in
    let length_octets := 1 + number_of_extra_length_octets in
    let octets := identifier_octets self + length_octets in
    let index := identifier_octets self + 1 in
    let data_length :=
      long_format_length_decode
        (py_slice byte_string index (index + number_of_extra_length_octets)) in
    let extra_data_length := 0 in
    Ok (set_total_octets
          (mk (type self) (number self) (identifier_octets self) octets
              length_octets data_length (total_octets self)
              extra_data_length))
  else
    let length_octets := 1 in
    let octets := identifier_octets self + length_octets in
    let data_length := first_octet in
    let extra_data_length := len byte_string - octets - data_length in
    Ok (set_total_octets
          (mk (type self) (number self) (identifier_octets self) octets
              length_octets data_length (total_octets self)
              extra_data_length)).

(** [Header.__init__]. *)
Definition init (byte_string : bytestr) : result t :=
  type <- tag_type_decode byte_string ;;
  '(number, identifier_octets) <- tag_identifier_decode byte_string ;;
  length_decode (mk type number identifier_octets 0 0 0 0 0) byte_string.

End Header.

(** ** class Tag *)

(** [str.encode('hex')]: two lower-case hexadecimal digits per octet. *)
Definition hex_digit (d : Z) : byte :=
  match nth_error (list_byte_of_string "0123456789abcdef") (Z.to_nat d) with
  | Some c => c
  | None => x00
  end.

Definition encode_hex (byte_string : bytestr) : bytestr :=
  flat_map (fun c => [hex_digit (ord c / 16); hex_digit (ord c mod 16)])
           byte_string.

Module Tag.

(** A [Tag] object: its attributes after [__init__]. [header] and [value]
    may be [None]; [nested_tags] is a tuple of tags. *)
Inductive t : Type :=
| mk (header : option Header.t) (value : option bytestr)
     (nested_tags : list t) (load_value : bool) (name : option bytestr).

Definition header (self : t) : option Header.t :=
  match self with mk h _ _ _ _ => h end.
Definition value (self : t) : option bytestr :=
  match self with mk _ v _ _ _ => v end.
Definition nested_tags (self : t) : list t :=
  match self with mk _ _ n _ _ => n end.
Definition load_value (self : t) : bool :=
  match self with mk _ _ _ l _ => l end.
Definition name (self : t) : option bytestr :=
  match self with mk _ _ _ _ n => n end.

Definition set_header (self : t) (h : Header.t) : t :=
  mk (Some h) (value self) (nested_tags self) (load_value self) (name self).
Definition set_value (self : t) (v : bytestr) : t :=
  mk (header self) (Some v) (nested_tags self) (load_value self) (name self).
Definition set_nested_tags (self : t) (n : list t) : t :=
  mk (header self) (value self) n (load_value self) (name self).

(** [self.header.<field>]: [AttributeError] when the header is [None]. *)
Definition header_attr {A : Type} (self : t) (field : Header.t -> A)
  : result A :=
  match header self with
  | Some h => Ok (field h)
  | None => Raise AttributeError
  end.

Definition _type_name : list string := ["primitive"; "constructed"]%string.

Definition decode_value (self : t) (byte_string : bytestr) : bytestr :=
  encode_hex byte_string.

Definition decode_constructed (self : t) (byte_string : bytestr) : result t :=
  octets <- header_attr self Header.octets ;;
  total_octets <- header_attr self Header.total_octets ;;
  Ok (set_value self (py_slice byte_string octets total_octets)).

Definition decode_primitive (self : t) (byte_string : bytestr) : result t :=
  octets <- header_attr self Header.octets ;;
  total_octets <- header_attr self Header.total_octets ;;
  Ok (set_value self
        (decode_value self (py_slice byte_string octets total_octets))).

Definition decode (self : t) (byte_string : bytestr) : result t :=
  self <- match header self with
          | None => h <- Header.init byte_string ;; Ok (set_header self h)
          | Some _ => Ok self
          end ;;
  if load_value self then
    type <- header_attr self Header.type ;;
    if type =? 0 then decode_primitive self byte_string
    else if type =? 1 then decode_constructed self byte_string
    else Ok self
  else Ok self.

(** [Tag.__init__]: [if byte_string:] holds for a string that is neither
    [None] nor empty. *)
Definition init (header : option Header.t) (byte_string : option bytestr)
    (load_value : bool) (name : option bytestr) : result t :=
  let self := mk header None [] load_value name in
  match byte_string with
  | Some (c :: s) => decode self (c :: s)
  | Some [] | None => Ok self
  end.

(** [Tag(byte_string=b)], every other argument at its default. *)
Definition of_bytes (byte_string : bytestr) : result t :=
  init None (Some byte_string) true None.

Definition number (self : t) : result Z := header_attr self Header.number.
Definition type (self : t) : result Z := header_attr self Header.type.
Definition header_octets (self : t) : result Z :=
  header_attr self Header.octets.
Definition total_octets (self : t) : result Z :=
  header_attr self Header.total_octets.
Definition data_length (self : t) : result Z :=
  header_attr self Header.data_length.

Definition get_type (self : t) : result string :=
  type <- header_attr self Header.type ;;
  type_name <- py_index _type_name type ;;
  data_length <- header_attr self Header.data_length ;;
  let type_name :=
    if data_length =? 0 then (type_name ++ "-Indefinite")%string
    else type_name in
  Ok type_name.

Definition add_nested_tag (self : t) (tag : t) : result t :=
  let item := [tag] in
  type <- header_attr self Header.type ;;
  if type =? 1 then Ok (set_nested_tags self (nested_tags self ++ [tag]))
  else Ok self.

End Tag.

(** ** Encoders the properties are stated with

    The module has no encoder; these build the encodings the
    properties speak of. *)

(** The big-endian [k]-octet encoding of [n]. *)
Fixpoint be_octets (k : nat) (n : Z) : bytestr :=
  match k with
  | O => []
  | S k' => chr (Z.shiftr n (8 * Z.of_nat k')) :: be_octets k' n
  end.

(** The base-128 groups of [n] above the last one, continuation bit set,
    most significant first. *)
Fixpoint lvq_groups (fuel : nat) (n : Z) (acc : bytestr) : bytestr :=
  match fuel with
  | O => acc
  | S fuel' =>
      if n =? 0 then acc
      else lvq_groups fuel' (n / 128) (chr (128 + n mod 128) :: acc)
  end.

(** The base-128 continuation encoding of [n]. *)
Definition lvq_encode (n : Z) : bytestr :=
  lvq_groups (Z.to_nat (Z.log2 n)) (n / 128) [chr (n mod 128)].

(** The value the specification gives a continuation-encoded octet sequence:
    [value = (value << 7) | (octet & 0x7F)] per octet, in octet order. *)
Definition spec_lvq_value (octets : bytestr) : Z :=
  fold_left (fun value c => Z.lor (Z.shiftl value 7) (Z.land (ord c) 127))
            octets 0.

(** ** Vocabulary of the properties *)

(** The three forms of the length octets, as [Header.length_decode] tells
    them apart on the first length octet [l], and the fields each assigns. *)
Definition indefinite_form (buf : bytestr) (l : byte) (h : Header.t) : Prop :=
  ord l = 128 /\
  Header.length_octets h = 1 /\
  Header.octets h = Header.identifier_octets h + 1 /\
  Header.data_length h = 0 /\
  Header.extra_data_length h = len buf - Header.octets h.

Definition long_form (buf : bytestr) (l : byte) (h : Header.t) : Prop :=
  128 < ord l /\
  Header.length_octets h = 1 + (ord l - 128) /\
  Header.octets h = Header.identifier_octets h + 1 + (ord l - 128) /\
  Header.data_length h =
    long_format_length_decode
      (py_slice buf (Header.identifier_octets h + 1)
                (Header.identifier_octets h + 1 + (ord l - 128))) /\
  Header.extra_data_length h = 0.

Definition short_form (buf : bytestr) (l : byte) (h : Header.t) : Prop :=
  ord l < 128 /\
  Header.length_octets h = 1 /\
  Header.octets h = Header.identifier_octets h + 1 /\
  Header.data_length h = ord l /\
  Header.extra_data_length h = len buf - Header.octets h - Header.data_length h.

(** Two headers that agree on everything but [extra_data_length]. *)
Definition same_envelope (h h' : Header.t) : Prop :=
  Header.type h' = Header.type h /\
  Header.number h' = Header.number h /\
  Header.identifier_octets h' = Header.identifier_octets h /\
  Header.octets h' = Header.octets h /\
  Header.length_octets h' = Header.length_octets h /\
  Header.data_length h' = Header.data_length h /\
  Header.total_octets h' = Header.total_octets h.

(** The big-endian value of a string of octets. *)
Fixpoint be_value (s : bytestr) : Z :=
  match s with
  | [] => 0
  | c :: s' => ord c * 2 ^ (8 * len s') + be_value s'
  end.

(** What [Tag(byte_string=buf)] holds once the header is decoded: the hex
    rendering of the value span for a primitive tag, the span itself for a
    constructed one, and no nested tag. *)
Definition decoded_tag (buf : bytestr) (h : Header.t) : Tag.t :=
  let span := py_slice buf (Header.octets h) (Header.total_octets h) in
  Tag.mk (Some h)
         (Some (if Header.type h =? 0 then encode_hex span else span))
         [] true None.

(** The value of a hexadecimal digit, the inverse of [hex_digit]. *)
Definition unhex_digit (d : byte) : Z :=
  let v := ord d in
  if (48 <=? v) && (v <=? 57) then v - 48
  else if (97 <=? v) && (v <=? 102) then v - 87
  else 0.

(** The octets with the continuation bit set. *)
Definition continues (c : byte) : Prop := 128 <= ord c.

(** The 7-bit groups of a string of octets. *)
Definition low7_groups (s : bytestr) : list Z :=
  map (fun c => Z.land (ord c) 127) s.

(** A caller's loop over [add_nested_tag]: [for tag in tags:
    self.add_nested_tag(tag)]. *)
Definition add_nested_tags (self : Tag.t) (tags : list Tag.t)
  : result Tag.t :=
  fold_left (fun r tag => self <- r ;; Tag.add_nested_tag self tag)
            tags (Ok self).

(** * Properties *)

(** ** Python sequences *)

Lemma len_nonneg {A : Type} (s : list A) : 0 <= len s.
Proof. unfold len. lia. Qed.

Lemma len_app {A : Type} (s s' : list A) : len (s ++ s') = len s + len s'.
Proof. unfold len. rewrite length_app. lia. Qed.

Lemma len_cons {A : Type} (a : A) (s : list A) : len (a :: s) = 1 + len s.
Proof. unfold len. simpl List.length. lia. Qed.

Lemma py_index_nonneg {A : Type} (s : list A) (i : Z) :
  0 <= i ->
  py_index s i = match nth_error s (Z.to_nat i) with
                 | Some a => Ok a
                 | None => Raise IndexError
                 end.
Proof.
  intros Hi. unfold py_index.
  assert (E : (i <? 0) = false) by (apply Z.ltb_ge; assumption).
  rewrite E. cbv zeta. rewrite E.
  destruct (len s <=? i) eqn:E'; simpl; [|reflexivity].
  apply Z.leb_le in E'.
  destruct (nth_error s (Z.to_nat i)) eqn:N; [|reflexivity].
  assert (Z.to_nat i < List.length s)%nat
    by (apply nth_error_Some; congruence).
  unfold len in E'. lia.
Qed.

Lemma py_index_head {A : Type} (a : A) (s : list A) :
  py_index (a :: s) 0 = Ok a.
Proof. rewrite py_index_nonneg by lia. reflexivity. Qed.

Lemma py_index_nil {A : Type} (i : Z) : py_index (@nil A) i = Raise IndexError.
Proof.
  unfold py_index. change (len (@nil A)) with 0. rewrite Z.add_0_r.
  replace (if i <? 0 then i else i) with i by (destruct (i <? 0); reflexivity).
  destruct (i <? 0) eqn:E; simpl; [reflexivity|].
  apply Z.ltb_ge in E.
  destruct (0 <=? i) eqn:E'; [reflexivity|]. apply Z.leb_gt in E'. lia.
Qed.

Lemma py_index_app_at {A : Type} (p q : list A) (a : A) :
  py_index (p ++ a :: q) (len p) = Ok a.
Proof.
  rewrite py_index_nonneg by apply len_nonneg.
  unfold len. rewrite Nat2Z.id, nth_error_app2 by lia.
  rewrite Nat.sub_diag. reflexivity.
Qed.

Lemma py_index_Ok_lt {A : Type} (s : list A) (i : Z) (a : A) :
  0 <= i -> py_index s i = Ok a -> i < len s.
Proof.
  intros Hi. rewrite py_index_nonneg by assumption.
  destruct (nth_error s (Z.to_nat i)) eqn:N; [|discriminate].
  intros _.
  assert (Z.to_nat i < List.length s)%nat
    by (apply nth_error_Some; congruence).
  unfold len. lia.
Qed.

Lemma py_index_lt_Ok {A : Type} (s : list A) (i : Z) :
  0 <= i < len s -> exists a, py_index s i = Ok a.
Proof.
  intros Hi. rewrite py_index_nonneg by lia.
  destruct (nth_error s (Z.to_nat i)) eqn:N; [eauto|].
  apply nth_error_None in N. unfold len in Hi. lia.
Qed.

Lemma py_slice_nonneg {A : Type} (s : list A) (a b : Z) :
  0 <= a -> 0 <= b ->
  py_slice s a b = skipn (Z.to_nat a) (firstn (Z.to_nat b) s).
Proof.
  intros Ha Hb. unfold py_slice, py_clamp.
  destruct (a <? 0) eqn:Ea; [apply Z.ltb_lt in Ea; lia|].
  destruct (b <? 0) eqn:Eb; [apply Z.ltb_lt in Eb; lia|].
  assert (Hf : firstn (Z.to_nat (Z.min b (len s))) s = firstn (Z.to_nat b) s).
  { destruct (Z.le_gt_cases b (len s)).
    - rewrite Z.min_l by assumption. reflexivity.
    - rewrite Z.min_r by lia. unfold len. rewrite Nat2Z.id.
      rewrite !firstn_all2; unfold len in *; try lia. reflexivity. }
  rewrite Hf.
  destruct (Z.le_gt_cases a (len s)).
  - rewrite Z.min_l by assumption. reflexivity.
  - rewrite Z.min_r by lia.
    rewrite !skipn_all2; [reflexivity | |];
      rewrite length_firstn; unfold len in *; lia.
Qed.

Lemma py_slice_from_nonneg {A : Type} (s : list A) (a : Z) :
  0 <= a -> py_slice_from s a = skipn (Z.to_nat a) s.
Proof.
  intros Ha. unfold py_slice_from, py_clamp.
  destruct (a <? 0) eqn:Ea; [apply Z.ltb_lt in Ea; lia|].
  destruct (Z.le_gt_cases a (len s)).
  - rewrite Z.min_l by assumption. reflexivity.
  - rewrite Z.min_r by lia.
    rewrite !skipn_all2; unfold len in *; [reflexivity | lia | lia].
Qed.

Lemma py_slice_app {A : Type} (p m q : list A) (a b : Z) :
  a = len p -> b = len p + len m ->
  py_slice (p ++ m ++ q) a b = m.
Proof.
  intros -> ->.
  rewrite py_slice_nonneg by (pose proof (len_nonneg p); pose proof (len_nonneg m); lia).
  unfold len. rewrite <- Nat2Z.inj_add, !Nat2Z.id.
  rewrite app_assoc, firstn_app, length_app.
  replace (List.length p + List.length m - (List.length p + List.length m))%nat
    with 0%nat by lia.
  rewrite firstn_all2 by (rewrite length_app; lia).
  simpl firstn. rewrite app_nil_r.
  rewrite skipn_app, Nat.sub_diag, skipn_all. reflexivity.
Qed.

(** ** Octets *)

Lemma ord_range (c : byte) : 0 <= ord c < 256.
Proof.
  unfold ord. pose proof (Byte.to_N_bounded c) as H. lia.
Qed.

Lemma ord_chr (z : Z) : ord (chr z) = z mod 256.
Proof.
  unfold chr, ord.
  pose proof (Z.mod_pos_bound z 256 ltac:(lia)) as Hz.
  destruct (Byte.of_N (Z.to_N (z mod 256))) as [c|] eqn:E.
  - apply Byte.to_of_N in E. rewrite E. lia.
  - apply Byte.of_N_None_iff in E. lia.
Qed.

Lemma ord_chr_small (z : Z) : 0 <= z < 256 -> ord (chr z) = z.
Proof. intros H. rewrite ord_chr. apply Z.mod_small. assumption. Qed.

(** Facts about one octet, by enumeration of its 256 values. *)
Lemma short_number_low5 (c : byte) :
  ord c - Z.land (ord c) 224 = Z.land (ord c) 31.
Proof. destruct c; reflexivity. Qed.

Lemma constructed_bit (c : byte) :
  (Z.land (ord c) 32 =? 32) = Z.testbit (ord c) 5.
Proof. destruct c; reflexivity. Qed.

Lemma high_bit_set (c : byte) :
  (Z.land (ord c) 128 =? 128) = (128 <=? ord c).
Proof. destruct c; reflexivity. Qed.

Lemma high_bit_clear (c : byte) :
  (Z.land (ord c) 128 =? 0) = (ord c <? 128).
Proof. destruct c; reflexivity. Qed.

Lemma low7_range (c : byte) : 0 <= Z.land (ord c) 127 < 128.
Proof. destruct c; cbv; split; congruence. Qed.

(** ** Identifier octets *)

Lemma tag_type_decode_cons (c : byte) (rest : bytestr) :
  tag_type_decode (c :: rest) = Ok (int_of_bool (Z.land (ord c) 32 =? 32)).
Proof. unfold tag_type_decode. rewrite py_index_head. reflexivity. Qed.

Lemma tag_type_decode_nil : tag_type_decode [] = Raise IndexError.
Proof. reflexivity. Qed.

Lemma tag_identifier_decode_cons (c : byte) (rest : bytestr) :
  tag_identifier_decode (c :: rest) =
  if Z.land (ord c) 31 =? 31
  then '(number, size) <- lvq_decode rest ;; Ok (number, size + 1)
  else Ok (Z.land (ord c) 31, 1).
Proof.
  unfold tag_identifier_decode. rewrite py_index_head. cbn [bind].
  destruct (Z.land (ord c) 31 =? 31).
  - rewrite py_slice_from_nonneg by lia. reflexivity.
  - cbn [bind]. rewrite short_number_low5. reflexivity.
Qed.

(** The [while] loop consumes at least one octet and at most the input, and
    its outcome depends on the octets it consumed only. *)
Lemma lvq_decode_loop_size (rest : bytestr) :
  forall values size values' size',
    lvq_decode_loop rest values size = Ok (values', size') ->
    size < size' <= size + len rest.
Proof.
  induction rest as [|c rest IH]; intros values size values' size' H.
  - discriminate.
  - cbn [lvq_decode_loop ord_str bind] in H. rewrite len_cons.
    pose proof (len_nonneg rest).
    destruct (Z.land (ord c) 128 =? 0).
    + inversion H; subst. lia.
    + apply IH in H. lia.
Qed.

Lemma lvq_decode_loop_prefix (p : bytestr) :
  forall q q' values size values' size',
    lvq_decode_loop (p ++ q) values size = Ok (values', size') ->
    size' - size <= len p ->
    lvq_decode_loop (p ++ q') values size = Ok (values', size').
Proof.
  induction p as [|c p IH]; intros q q' values size values' size' H Hle.
  - apply lvq_decode_loop_size in H. change (len (@nil byte)) with 0 in Hle. lia.
  - cbn [app lvq_decode_loop ord_str bind] in *. rewrite len_cons in Hle.
    destruct (Z.land (ord c) 128 =? 0); [assumption|].
    eapply IH; [eassumption | lia].
Qed.

Lemma lvq_decode_loop_values_nonneg (rest : bytestr) :
  forall values size values' size',
    lvq_decode_loop rest values size = Ok (values', size') ->
    Forall (fun v => 0 <= v) values -> Forall (fun v => 0 <= v) values'.
Proof.
  induction rest as [|c rest IH]; intros values size values' size' H Hv.
  - discriminate.
  - cbn [lvq_decode_loop ord_str bind] in H.
    assert (Hv' : Forall (fun v => 0 <= v) (values ++ [Z.land (ord c) 127])).
    { apply Forall_app. split; [assumption|].
      constructor; [apply low7_range | constructor]. }
    destruct (Z.land (ord c) 128 =? 0).
    + inversion H; subst. assumption.
    + eapply IH; eassumption.
Qed.

Lemma lvq_fold_nonneg (shift : Z) (values : list Z) :
  forall acc, 0 <= acc -> Forall (fun v => 0 <= v) values ->
              0 <= fold_left (lvq_decode_step shift) values acc.
Proof.
  induction values as [|v values IH]; intros acc Hacc Hv; [assumption|].
  inversion Hv; subst. cbn [fold_left]. apply IH; [|assumption].
  unfold lvq_decode_step. apply Z.lor_nonneg. split; assumption.
Qed.

Lemma lvq_decode_bounds (s : bytestr) (number size : Z) :
  lvq_decode s = Ok (number, size) -> 0 <= number /\ 0 < size <= len s.
Proof.
  unfold lvq_decode. destruct (lvq_decode_loop s [] 0) as [[values sz]|] eqn:E;
    [|discriminate].
  cbn [bind]. intros H. inversion H; subst. split.
  - apply lvq_fold_nonneg; [lia|].
    eapply lvq_decode_loop_values_nonneg; [eassumption | constructor].
  - apply lvq_decode_loop_size in E. lia.
Qed.

Lemma lvq_decode_prefix (p q q' : bytestr) (number size : Z) :
  lvq_decode (p ++ q) = Ok (number, size) -> size <= len p ->
  lvq_decode (p ++ q') = Ok (number, size).
Proof.
  unfold lvq_decode.
  destruct (lvq_decode_loop (p ++ q) [] 0) as [[values sz]|] eqn:E;
    [|discriminate].
  cbn [bind]. intros H Hle. inversion H; subst.
  rewrite (lvq_decode_loop_prefix p q q' [] 0 values size E) by lia.
  reflexivity.
Qed.

Lemma tag_identifier_decode_bounds (s : bytestr) (number identifier_octets : Z) :
  tag_identifier_decode s = Ok (number, identifier_octets) ->
  0 <= number /\ 1 <= identifier_octets <= len s.
Proof.
  destruct s as [|c rest]; [discriminate|].
  rewrite tag_identifier_decode_cons, len_cons.
  pose proof (len_nonneg rest).
  destruct (Z.land (ord c) 31 =? 31) eqn:E.
  - destruct (lvq_decode rest) as [[n sz]|] eqn:L; [|discriminate].
    cbn [bind]. intros H'. inversion H'; subst.
    apply lvq_decode_bounds in L. lia.
  - intros H'. inversion H'; subst. split; [|lia].
    apply Z.land_nonneg. right. lia.
Qed.

Lemma tag_identifier_decode_prefix (p q q' : bytestr) (number identifier_octets : Z) :
  tag_identifier_decode (p ++ q) = Ok (number, identifier_octets) ->
  identifier_octets <= len p ->
  tag_identifier_decode (p ++ q') = Ok (number, identifier_octets).
Proof.
  destruct p as [|c p].
  - intros H Hle. apply tag_identifier_decode_bounds in H.
    change (len (@nil byte)) with 0 in Hle. lia.
  - cbn [app]. rewrite !tag_identifier_decode_cons, len_cons.
    destruct (Z.land (ord c) 31 =? 31); [|tauto].
    destruct (lvq_decode (p ++ q)) as [[n sz]|] eqn:L; [|discriminate].
    cbn [bind]. intros H Hle. injection H as Hn Hs.
    rewrite (lvq_decode_prefix p q q' n sz L) by lia.
    cbn [bind]. subst. reflexivity.
Qed.

(** ** Header *)

Lemma Ok_inj {A : Type} (a b : A) : Ok a = Ok b -> a = b.
Proof. intros H. injection H as H. exact H. Qed.

Ltac header_fields :=
  cbn [Header.type Header.number Header.identifier_octets Header.octets
       Header.length_octets Header.data_length Header.total_octets
       Header.extra_data_length Header.set_total_octets] in *.

Lemma Header_init_inv (buf : bytestr) (h : Header.t) :
  Header.init buf = Ok h ->
  exists c rest l,
    buf = c :: rest /\
    Header.type h = int_of_bool (Z.land (ord c) 32 =? 32) /\
    tag_identifier_decode buf
      = Ok (Header.number h, Header.identifier_octets h) /\
    py_index buf (Header.identifier_octets h) = Ok l /\
    Header.total_octets h = Header.octets h + Header.data_length h /\
    (indefinite_form buf l h \/ long_form buf l h \/ short_form buf l h).
Proof.
  unfold Header.init. destruct buf as [|c rest]; [discriminate|].
  rewrite tag_type_decode_cons. cbn [bind].
  destruct (tag_identifier_decode (c :: rest)) as [[num ido]|] eqn:Hid;
    [|discriminate].
  cbn [bind]. unfold Header.length_decode. cbn [Header.identifier_octets].
  destruct (py_index (c :: rest) ido) as [l|] eqn:Hl; [|discriminate].
  cbn [bind]. rewrite high_bit_set. pose proof (ord_range l) as Hr.
  intros H. exists c, rest, l.
  destruct (ord l =? 128) eqn:E1; [|destruct (128 <=? ord l) eqn:E2];
    apply Ok_inj in H; subst h; header_fields;
    repeat (split; [first [reflexivity | assumption]|]).
  - left. apply Z.eqb_eq in E1. unfold indefinite_form. header_fields.
    repeat split; try reflexivity; lia.
  - right; left. apply Z.eqb_neq in E1. apply Z.leb_le in E2.
    unfold long_form. header_fields.
    repeat split; try reflexivity; lia.
  - right; right. apply Z.leb_gt in E2. unfold short_form. header_fields.
    repeat split; try reflexivity; lia.
Qed.

(** [Header] raises exactly when the identifier octets cannot be decoded or
    the first length octet is missing: nothing else is checked. *)
Lemma Header_init_Ok_iff (buf : bytestr) :
  (exists h, Header.init buf = Ok h) <->
  (exists number identifier_octets,
      tag_identifier_decode buf = Ok (number, identifier_octets) /\
      identifier_octets < len buf).
Proof.
  split.
  - intros [h H]. apply Header_init_inv in H.
    destruct H as (c & rest & l & _ & _ & Hid & Hl & _).
    exists (Header.number h), (Header.identifier_octets h).
    split; [assumption|].
    apply tag_identifier_decode_bounds in Hid.
    eapply py_index_Ok_lt; [lia | eassumption].
  - intros (num & ido & Hid & Hlt).
    pose proof (tag_identifier_decode_bounds _ _ _ Hid) as Hb.
    destruct (py_index_lt_Ok buf ido ltac:(lia)) as [l Hl].
    unfold Header.init. destruct buf as [|c rest]; [discriminate|].
    rewrite tag_type_decode_cons, Hid. cbn [bind].
    unfold Header.length_decode. cbn [Header.identifier_octets].
    rewrite Hl. cbn [bind].
    destruct (ord l =? 128); [|destruct (Z.land (ord l) 128 =? 128)]; eauto.
Qed.

Lemma py_index_app_prefix {A : Type} (p q : list A) (i : Z) :
  0 <= i < len p -> py_index (p ++ q) i = py_index p i.
Proof.
  intros Hi. rewrite !py_index_nonneg by lia.
  rewrite nth_error_app1 by (unfold len in Hi; lia). reflexivity.
Qed.

Lemma py_slice_app_prefix {A : Type} (p q : list A) (a b : Z) :
  0 <= a -> 0 <= b <= len p -> py_slice (p ++ q) a b = py_slice p a b.
Proof.
  intros Ha Hb. rewrite !py_slice_nonneg by lia.
  rewrite firstn_app.
  replace (Z.to_nat b - List.length p)%nat with 0%nat
    by (unfold len in Hb; lia).
  cbn [firstn]. rewrite app_nil_r. reflexivity.
Qed.

Lemma py_slice_length {A : Type} (s : list A) (a b : Z) :
  0 <= a <= b -> b <= len s -> len (py_slice s a b) = b - a.
Proof.
  intros Ha Hb. rewrite py_slice_nonneg by lia.
  unfold len in *. rewrite length_skipn, length_firstn. lia.
Qed.

(** The header octets alone fix the header, but for [extra_data_length]:
    what follows them in the buffer is not looked at. *)
Lemma Header_init_prefix (p q q' : bytestr) (h : Header.t) :
  Header.init (p ++ q) = Ok h -> Header.octets h <= len p ->
  exists h', Header.init (p ++ q') = Ok h' /\ same_envelope h h'.
Proof.
  intros H Hoct.
  destruct (Header_init_inv _ _ H)
    as (c & rest & l & Hbuf & Hty & Hid & Hl & Htot & Hform).
  pose proof (tag_identifier_decode_bounds _ _ _ Hid) as [_ Hido].
  pose proof (ord_range l) as Hr.
  assert (Hlt : Header.identifier_octets h < len p).
  { unfold indefinite_form, long_form, short_form in Hform. lia. }
  pose proof (tag_identifier_decode_prefix p q q' _ _ Hid ltac:(lia)) as Hid'.
  assert (Hex : exists h', Header.init (p ++ q') = Ok h').
  { apply Header_init_Ok_iff. do 2 eexists. split; [exact Hid'|].
    rewrite len_app. pose proof (len_nonneg q'). lia. }
  destruct Hex as [h' H']. exists h'. split; [assumption|].
  destruct (Header_init_inv _ _ H')
    as (c' & rest' & l' & Hbuf' & Hty' & Hid2 & Hl' & Htot' & Hform').
  rewrite Hid' in Hid2. injection Hid2 as Hnum Hido'.
  unfold indefinite_form, long_form, short_form in Hform, Hform'.
  rewrite <- Hido' in Hl', Hform'.
  rewrite py_index_app_prefix in Hl, Hl' by lia.
  assert (l' = l) by congruence. subst l'.
  assert (c' = c).
  { destruct p as [|c0 p]; [change (len (@nil byte)) with 0 in Hlt; lia|].
    cbn [app] in Hbuf, Hbuf'. congruence. }
  subst c'.
  assert (Hdata : Header.octets h' = Header.octets h /\
                  Header.length_octets h' = Header.length_octets h /\
                  Header.data_length h' = Header.data_length h).
  { destruct Hform as [F|[F|F]]; destruct Hform' as [F'|[F'|F']];
      try lia.
    destruct F as (? & ? & Ho & Hd & ?), F' as (? & ? & Ho' & Hd' & ?).
    rewrite py_slice_app_prefix in Hd, Hd' by lia.
    repeat split; lia. }
  unfold same_envelope. repeat split; try congruence; lia.
Qed.

(** ** Long-form length octets *)

Lemma be_value_range (s : bytestr) : 0 <= be_value s < 2 ^ (8 * len s).
Proof.
  induction s as [|c s IH]; [cbn; lia|].
  cbn [be_value]. rewrite len_cons.
  pose proof (ord_range c). pose proof (len_nonneg s).
  replace (8 * (1 + len s)) with (8 + 8 * len s) by lia.
  rewrite Z.pow_add_r by lia. change (2 ^ 8) with 256. nia.
Qed.

Lemma lor_shiftl_low (c v s : Z) :
  0 <= s -> 0 <= v < 2 ^ s -> Z.lor (Z.shiftl c s) v = c * 2 ^ s + v.
Proof.
  intros Hs Hv. rewrite Z.shiftl_mul_pow2 by assumption.
  assert (Hland : Z.land (c * 2 ^ s) v = 0).
  { destruct (Z.eq_dec v 0) as [->|Hv0]; [apply Z.land_0_r|].
    assert (Hlog : Z.log2 v < s) by (apply Z.log2_lt_pow2; lia).
    apply Z.bits_inj'. intros i Hi. rewrite Z.land_spec, Z.bits_0.
    destruct (Z.lt_ge_cases i s).
    - rewrite Z.mul_pow2_bits_low by lia. reflexivity.
    - rewrite (Z.bits_above_log2 v i) by lia. apply andb_false_r. }
  rewrite <- Z.lxor_lor by assumption.
  symmetry. apply Z.add_nocarry_lxor. assumption.
Qed.

Lemma long_format_length_fold (s : bytestr) :
  forall acc,
    fst (fold_left long_format_length_step s (acc, 8 * (len s - 1)))
    = Z.lor acc (be_value s).
Proof.
  induction s as [|c s IH]; intros acc.
  - cbn. rewrite Z.lor_0_r. reflexivity.
  - cbn [fold_left long_format_length_step be_value].
    rewrite len_cons. pose proof (len_nonneg s).
    replace (8 * (1 + len s - 1)) with (8 * len s) by lia.
    replace (8 * len s - 8) with (8 * (len s - 1)) by lia.
    rewrite IH, <- Z.lor_assoc, lor_shiftl_low; [reflexivity | lia |].
    apply be_value_range.
Qed.

Lemma long_format_length_decode_value (s : bytestr) :
  long_format_length_decode s = be_value s.
Proof.
  unfold long_format_length_decode. rewrite long_format_length_fold.
  apply Z.lor_0_l.
Qed.

Lemma be_octets_len (k : nat) (n : Z) : len (be_octets k n) = Z.of_nat k.
Proof.
  induction k as [|k IH]; [reflexivity|].
  cbn [be_octets]. rewrite len_cons, IH. lia.
Qed.

Lemma be_value_be_octets (k : nat) (n : Z) :
  be_value (be_octets k n) = n mod 2 ^ (8 * Z.of_nat k).
Proof.
  induction k as [|k IH].
  - cbn. rewrite Z.mod_1_r. reflexivity.
  - cbn [be_octets be_value]. rewrite IH, be_octets_len, ord_chr.
    rewrite Z.shiftr_div_pow2 by lia.
    replace (8 * Z.of_nat (S k)) with (8 * Z.of_nat k + 8) by lia.
    rewrite Z.pow_add_r by lia. change (2 ^ 8) with 256.
    rewrite Z.rem_mul_r by lia. lia.
Qed.

(** ** Tag *)

Lemma Header_type_bool (buf : bytestr) (h : Header.t) :
  Header.init buf = Ok h -> Header.type h = 0 \/ Header.type h = 1.
Proof.
  intros H. apply Header_init_inv in H.
  destruct H as (c & rest & l & _ & Hty & _). rewrite Hty.
  destruct (Z.land (ord c) 32 =? 32); cbn; auto.
Qed.

Lemma Tag_of_bytes_cons (c : byte) (s : bytestr) :
  Tag.of_bytes (c :: s) =
  h <- Header.init (c :: s) ;; Ok (decoded_tag (c :: s) h).
Proof.
  unfold Tag.of_bytes, Tag.init, Tag.decode. cbn [Tag.header].
  destruct (Header.init (c :: s)) as [h|e] eqn:H; cbn [bind]; [|reflexivity].
  unfold Tag.set_header. cbn [Tag.load_value Tag.value Tag.nested_tags Tag.name].
  unfold Tag.header_attr at 1. cbn [Tag.header bind].
  unfold decoded_tag.
  destruct (Header_type_bool _ _ H) as [Hty|Hty]; rewrite Hty; reflexivity.
Qed.

Lemma Tag_of_bytes_Ok (buf : bytestr) (h : Header.t) :
  Header.init buf = Ok h -> Tag.of_bytes buf = Ok (decoded_tag buf h).
Proof.
  intros H. destruct buf as [|c s]; [discriminate|].
  rewrite Tag_of_bytes_cons, H. reflexivity.
Qed.

Lemma Tag_of_bytes_inv (buf : bytestr) (t : Tag.t) :
  buf <> [] -> Tag.of_bytes buf = Ok t ->
  exists h, Header.init buf = Ok h /\ t = decoded_tag buf h.
Proof.
  intros Hne H. destruct buf as [|c s]; [congruence|].
  rewrite Tag_of_bytes_cons in H.
  destruct (Header.init (c :: s)) as [h|e]; [|discriminate].
  exists h. split; [reflexivity|]. symmetry. apply Ok_inj. exact H.
Qed.

(** [Tag.decode] never touches [nested_tags]. *)
Lemma Tag_decode_nested_tags (self t : Tag.t) (buf : bytestr) :
  Tag.decode self buf = Ok t -> Tag.nested_tags t = Tag.nested_tags self.
Proof.
  unfold Tag.decode.
  assert (Hstep : forall s s' : Tag.t,
             (if Tag.load_value s then
                type <- Tag.header_attr s Header.type ;;
                if type =? 0 then Tag.decode_primitive s buf
                else if type =? 1 then Tag.decode_constructed s buf
                else Ok s
              else Ok s) = Ok s' ->
             Tag.nested_tags s' = Tag.nested_tags s).
  { intros s s'. unfold Tag.decode_primitive, Tag.decode_constructed,
                   Tag.header_attr.
    destruct (Tag.load_value s); [|intros E; apply Ok_inj in E; congruence].
    destruct (Tag.header s) as [h|]; cbn [bind]; [|discriminate].
    destruct (Header.type h =? 0); [|destruct (Header.type h =? 1)];
      intros E; apply Ok_inj in E; subst s'; reflexivity. }
  destruct (Tag.header self) as [h0|].
  - cbn [bind]. apply Hstep.
  - destruct (Header.init buf) as [h|]; cbn [bind]; [|discriminate].
    intros E. apply Hstep in E. rewrite E. reflexivity.
Qed.

Lemma Tag_init_nested_tags (header : option Header.t)
    (byte_string : option bytestr) (load_value : bool)
    (name : option bytestr) (t : Tag.t) :
  Tag.init header byte_string load_value name = Ok t ->
  Tag.nested_tags t = [].
Proof.
  unfold Tag.init. destruct byte_string as [[|c s]|].
  - intros E. apply Ok_inj in E. subst t. reflexivity.
  - intros E. apply Tag_decode_nested_tags in E. exact E.
  - intros E. apply Ok_inj in E. subst t. reflexivity.
Qed.

Lemma encode_hex_len (s : bytestr) : len (encode_hex s) = 2 * len s.
Proof.
  induction s as [|c s IH]; [reflexivity|].
  unfold encode_hex in *. cbn [flat_map app]. rewrite !len_cons, IH. lia.
Qed.

(** * The properties of the specification *)

(** C7: the constructed flag of a decoded header is bit 6 (mask 0x20, bit
    index 5 counting from 0) of the first identifier octet, for every buffer
    and every header decoded from it; identifier octet 0x02 gives 0
    (primitive), identifier octet 0x30 gives 1 (constructed). *)
Theorem C7_constructed_flag_is_bit_6 :
  forall (c : byte) (rest : bytestr),
    tag_type_decode (c :: rest) = Ok (int_of_bool (Z.testbit (ord c) 5)) /\
    (forall h, Header.init (c :: rest) = Ok h ->
               Header.type h = int_of_bool (Z.testbit (ord c) 5)) /\
    tag_type_decode (x02 :: rest) = Ok 0 /\
    (forall h, Header.init (x02 :: rest) = Ok h -> Header.type h = 0) /\
    tag_type_decode (x30 :: rest) = Ok 1 /\
    (forall h, Header.init (x30 :: rest) = Ok h -> Header.type h = 1).
Proof.
  intros c rest.
  assert (Hgen : forall c0 h, Header.init (c0 :: rest) = Ok h ->
                   Header.type h = int_of_bool (Z.testbit (ord c0) 5)).
  { intros c0 h H. apply Header_init_inv in H.
    destruct H as (c' & rest' & l & Hbuf & Hty & _).
    injection Hbuf as <- <-. rewrite Hty, constructed_bit. reflexivity. }
  repeat split.
  - rewrite tag_type_decode_cons, constructed_bit. reflexivity.
  - apply Hgen.
  - intros h H. apply Hgen in H. exact H.
  - intros h H. apply Hgen in H. exact H.
Qed.

Lemma C7_witness :
  exists h, Header.init [x30; x03; x02; x01; x05] = Ok h /\ Header.type h = 1.
Proof.
  eexists. split; [reflexivity|].
  apply (proj2 (proj2 (proj2 (proj2 (proj2
           (C7_constructed_flag_is_bit_6 x00 [x03; x02; x01; x05])))))).
  reflexivity.
Defined.

(** C6: decoding the buffer [0x02, 0x01, 0x05] gives a leaf (primitive, no
    nested tag) with tag number 2 and data length 1; the value span handed to
    the default interpreter is [0x05] and the interpreted value is "05".
    The default interpreter [decode_value] renders every octet as two
    hexadecimal digits. *)
Theorem C6_example_integer_leaf :
  let buf := [x02; x01; x05] in
  exists t h,
    Tag.of_bytes buf = Ok t /\
    Tag.header t = Some h /\
    Header.type h = 0 /\
    Tag.nested_tags t = [] /\
    Header.number h = 2 /\
    Header.data_length h = 1 /\
    py_slice buf (Header.octets h) (Header.total_octets h) = [x05] /\
    Tag.value t = Some (list_byte_of_string "05") /\
    Tag.decode_value t [x05] = list_byte_of_string "05" /\
    (forall s, len (Tag.decode_value t s) = 2 * len s).
Proof.
  cbv zeta. do 2 eexists.
  split; [reflexivity|]. split; [reflexivity|].
  repeat split. intros s. apply encode_hex_len.
Qed.

(** C9: for every decoded tag, [get_type] is the type name of the header's
    type ("primitive" or "constructed") with the suffix "-Indefinite"
    appended exactly when [header.data_length == 0], and the bare type name
    otherwise. In particular the buffer [0x05, 0x00], a definite-length tag
    with an empty value whose length octet is 0x00 and not 0x80, is reported
    as "primitive-Indefinite". *)
Theorem C9_get_type_indefinite_suffix :
  (forall (buf : bytestr) (t : Tag.t),
      buf <> [] -> Tag.of_bytes buf = Ok t ->
      exists h base,
        Tag.header t = Some h /\ Header.init buf = Ok h /\
        py_index Tag._type_name (Header.type h) = Ok base /\
        (base = "primitive"%string \/ base = "constructed"%string) /\
        (Header.data_length h = 0 ->
         Tag.get_type t = Ok (base ++ "-Indefinite")%string) /\
        (Header.data_length h <> 0 -> Tag.get_type t = Ok base)) /\
  (exists t h,
      Tag.of_bytes [x05; x00] = Ok t /\ Tag.header t = Some h /\
      py_index [x05; x00] (Header.identifier_octets h) = Ok x00 /\
      Header.data_length h = 0 /\
      Tag.get_type t = Ok "primitive-Indefinite"%string).
Proof.
  split.
  - intros buf t Hne H.
    destruct (Tag_of_bytes_inv _ _ Hne H) as (h & Hh & ->).
    assert (Hbase : exists base,
               py_index Tag._type_name (Header.type h) = Ok base /\
               (base = "primitive"%string \/ base = "constructed"%string)).
    { destruct (Header_type_bool _ _ Hh) as [E|E]; rewrite E;
        eexists; (split; [reflexivity|]); auto. }
    destruct Hbase as (base & Hidx & Hb).
    exists h, base. repeat split; try assumption.
    + intros Hz. unfold Tag.get_type, Tag.header_attr, decoded_tag.
      cbn [Tag.header bind]. rewrite Hidx. cbn [bind]. rewrite Hz.
      reflexivity.
    + intros Hnz. unfold Tag.get_type, Tag.header_attr, decoded_tag.
      cbn [Tag.header bind]. rewrite Hidx. cbn [bind].
      apply Z.eqb_neq in Hnz. rewrite Hnz. reflexivity.
  - do 2 eexists. split; [reflexivity|]. repeat split.
Qed.

Lemma C9_witness :
  exists h base,
    Header.init [x30; x00] = Ok h /\
    py_index Tag._type_name (Header.type h) = Ok base /\
    Header.data_length h = 0 /\
    Tag.get_type (decoded_tag [x30; x00] h)
      = Ok (base ++ "-Indefinite")%string.
Proof.
  destruct (proj1 C9_get_type_indefinite_suffix [x30; x00]
              (decoded_tag [x30; x00]
                 (Header.mk 1 16 1 2 1 0 2 0)))
    as (h & base & Hh & Hinit & Hidx & _ & Hz & _).
  - discriminate.
  - reflexivity.
  - exists h, base. apply Ok_inj in Hinit. subst h.
    repeat split; try assumption. apply Hz. reflexivity.
Defined.

(** C10: on a tag whose header is primitive ([header.type == 0])
    [add_nested_tag] changes nothing, so the [nested_tags] of a leaf, empty
    after [__init__], stay empty; on a constructed tag ([header.type == 1])
    it appends the given tag at the end of [nested_tags] and keeps the
    earlier ones in order, every other attribute unchanged. *)
Theorem C10_add_nested_tag :
  forall (self tag : Tag.t) (h : Header.t),
    Tag.header self = Some h ->
    (Header.type h = 0 -> Tag.add_nested_tag self tag = Ok self) /\
    (Header.type h = 0 -> Tag.nested_tags self = [] ->
     exists self', Tag.add_nested_tag self tag = Ok self' /\
                   Tag.nested_tags self' = []) /\
    (Header.type h = 1 ->
     exists self',
       Tag.add_nested_tag self tag = Ok self' /\
       Tag.nested_tags self' = Tag.nested_tags self ++ [tag] /\
       Tag.header self' = Tag.header self /\
       Tag.value self' = Tag.value self /\
       Tag.load_value self' = Tag.load_value self /\
       Tag.name self' = Tag.name self) /\
    (forall header byte_string load_value name t,
        Tag.init header byte_string load_value name = Ok t ->
        Tag.nested_tags t = []).
Proof.
  intros self tag h Hh.
  assert (Hprim : Header.type h = 0 -> Tag.add_nested_tag self tag = Ok self).
  { intros Hty. unfold Tag.add_nested_tag, Tag.header_attr.
    rewrite Hh. cbn [bind]. rewrite Hty. reflexivity. }
  split; [exact Hprim|]. split; [|split].
  - intros Hty Hnil. exists self. split; [apply Hprim; assumption|assumption].
  - intros Hty. eexists. split.
    + unfold Tag.add_nested_tag, Tag.header_attr.
      rewrite Hh. cbn [bind]. rewrite Hty. reflexivity.
    + destruct self. repeat split.
  - intros header byte_string load_value name t.
    apply Tag_init_nested_tags.
Qed.

Lemma C10_witness :
  let leaf := decoded_tag [x02; x01; x05] (Header.mk 0 2 1 2 1 1 3 0) in
  let seq :=
    decoded_tag [x30; x03; x02; x01; x05] (Header.mk 1 16 1 2 1 3 5 0) in
  Tag.of_bytes [x02; x01; x05] = Ok leaf /\
  Tag.of_bytes [x30; x03; x02; x01; x05] = Ok seq /\
  Tag.add_nested_tag leaf leaf = Ok leaf /\
  exists seq', Tag.add_nested_tag seq leaf = Ok seq' /\
               Tag.nested_tags seq' = [leaf].
Proof.
  intros leaf seq.
  split; [reflexivity|]. split; [reflexivity|]. split.
  - apply (proj1 (C10_add_nested_tag leaf leaf (Header.mk 0 2 1 2 1 1 3 0)
                    eq_refl)).
    reflexivity.
  - destruct (proj1 (proj2 (proj2
               (C10_add_nested_tag seq leaf (Header.mk 1 16 1 2 1 3 5 0)
                  eq_refl))) eq_refl)
      as (s & Hadd & Hnest & _).
    exists s. split; [exact Hadd | exact Hnest].
Defined.

(** C5: for every octet count [k] in [1,4] and every [n] representable in
    [8k] bits, a header whose identifier octets are followed by the length
    octet [0x80 | k] and the big-endian [k]-octet encoding of [n] decodes to
    [data_length = n] and [length_octets = 1 + k]; the long-form decoder
    itself gives [n] on these [k] octets. *)
Theorem C5_long_form_length :
  forall (ident rest : bytestr) (number : Z) (k : nat) (n : Z),
    let buf := ident ++ chr (Z.lor 128 (Z.of_nat k)) :: be_octets k n ++ rest in
    tag_identifier_decode buf = Ok (number, len ident) ->
    (1 <= k <= 4)%nat ->
    0 <= n < 2 ^ (8 * Z.of_nat k) ->
    long_format_length_decode (be_octets k n) = n /\
    exists h,
      Header.init buf = Ok h /\
      Header.data_length h = n /\
      Header.length_octets h = 1 + Z.of_nat k.
Proof.
  intros ident rest number k n buf Hid Hk Hn.
  assert (Hdec : long_format_length_decode (be_octets k n) = n).
  { rewrite long_format_length_decode_value, be_value_be_octets.
    apply Z.mod_small. assumption. }
  split; [exact Hdec|].
  set (l := chr (Z.lor 128 (Z.of_nat k))) in *.
  assert (Hl : ord l = 128 + Z.of_nat k).
  { subst l. assert (Hcases : (k = 1 \/ k = 2 \/ k = 3 \/ k = 4)%nat) by lia.
    destruct Hcases as [->|[->|[->| ->]]]; reflexivity. }
  pose proof (len_nonneg ident) as Hident.
  assert (Hex : exists h, Header.init buf = Ok h).
  { apply Header_init_Ok_iff. exists number, (len ident).
    split; [assumption|]. subst buf. rewrite len_app, len_cons.
    pose proof (len_nonneg (be_octets k n ++ rest)). lia. }
  destruct Hex as [h H]. exists h. split; [assumption|].
  destruct (Header_init_inv _ _ H)
    as (c & rest' & l' & _ & _ & Hid' & Hl' & _ & Hform).
  rewrite Hid in Hid'. injection Hid' as Hnum Hido.
  rewrite <- Hido in Hl'. unfold buf in Hl'.
  rewrite py_index_app_at in Hl'. apply Ok_inj in Hl'. subst l'.
  unfold indefinite_form, long_form, short_form in Hform.
  destruct Hform as [F|[F|F]]; try lia.
  destruct F as (_ & Hlo & _ & Hd & _). split; [|lia].
  rewrite Hd, <- Hido, Hl.
  replace buf with ((ident ++ [l]) ++ be_octets k n ++ rest)
    by (subst buf; rewrite <- app_assoc; reflexivity).
  rewrite py_slice_app; [exact Hdec | |].
  - rewrite len_app. reflexivity.
  - rewrite len_app, be_octets_len. change (len [l]) with 1. lia.
Qed.

Lemma C5_witness :
  long_format_length_decode (be_octets 2 300) = 300 /\
  exists h,
    Header.init [x02; x82; x01; x2c] = Ok h /\
    Header.data_length h = 300 /\
    Header.length_octets h = 1 + 2.
Proof.
  apply (C5_long_form_length [x02] [] 2 2%nat 300).
  - reflexivity.
  - lia.
  - cbn. lia.
Defined.

(** The number [lvq_decode] returns is the bitwise OR of the 7-bit groups,
    none of them shifted: it never reaches 128. *)
Lemma lor_below_128 (a b : Z) :
  0 <= a < 128 -> 0 <= b < 128 -> 0 <= Z.lor a b < 128.
Proof.
  intros Ha Hb.
  assert (Hnn : 0 <= Z.lor a b) by (apply Z.lor_nonneg; lia).
  split; [assumption|].
  destruct (Z.eq_dec (Z.lor a b) 0) as [E|E]; [lia|].
  change 128 with (2 ^ 7). apply Z.log2_lt_pow2; [lia|].
  rewrite Z.log2_lor by lia.
  assert (Hlog : forall x, 0 <= x < 128 -> Z.log2 x < 7).
  { intros x Hx. destruct (Z.eq_dec x 0) as [->|]; [cbn; lia|].
    apply Z.log2_lt_pow2; [lia|]. change (2 ^ 7) with 128. lia. }
  pose proof (Hlog a Ha). pose proof (Hlog b Hb). lia.
Qed.

Lemma lvq_decode_loop_values_low7 (rest : bytestr) :
  forall values size values' size',
    lvq_decode_loop rest values size = Ok (values', size') ->
    Forall (fun v => 0 <= v < 128) values ->
    Forall (fun v => 0 <= v < 128) values'.
Proof.
  induction rest as [|c rest IH]; intros values size values' size' H Hv.
  - discriminate.
  - cbn [lvq_decode_loop ord_str bind] in H.
    assert (Hv' : Forall (fun v => 0 <= v < 128)
                         (values ++ [Z.land (ord c) 127])).
    { apply Forall_app. split; [assumption|].
      constructor; [apply low7_range | constructor]. }
    destruct (Z.land (ord c) 128 =? 0).
    + apply Ok_inj in H. injection H as <- _. assumption.
    + eapply IH; eassumption.
Qed.

Lemma lvq_fold_below_128 (shift : Z) (values : list Z) :
  forall acc, 0 <= acc < 128 -> Forall (fun v => 0 <= v < 128) values ->
              0 <= fold_left (lvq_decode_step shift) values acc < 128.
Proof.
  induction values as [|v values IH]; intros acc Hacc Hv; [assumption|].
  inversion Hv; subst. cbn [fold_left]. apply IH; [|assumption].
  unfold lvq_decode_step. apply lor_below_128; assumption.
Qed.

Lemma lvq_decode_below_128 (s : bytestr) (number size : Z) :
  lvq_decode s = Ok (number, size) -> 0 <= number < 128.
Proof.
  unfold lvq_decode.
  destruct (lvq_decode_loop s [] 0) as [[values sz]|] eqn:E; [|discriminate].
  cbn [bind]. intros H. apply Ok_inj in H. injection H as <- _.
  apply lvq_fold_below_128; [lia|].
  eapply lvq_decode_loop_values_low7; [eassumption | constructor].
Qed.

(** C2, as the code has it. Short form: a first identifier octet made of any
    class and constructed bits [cls] and a tag number [n] in 0..30 decodes to
    [n], one identifier octet. Long form: the number decoded is below 128
    whatever the octets, so no [n >= 128] is decoded to itself; on the
    base-128 continuation encodings of 127, 128, 16383 and 16384, whose value
    by the specification's accumulation is [n], [tag_identifier_decode]
    gives 127, 1, 127 and 1. *)
Theorem C2_long_form_tag_number_not_round_trip :
  (forall (cls n : Z) (rest : bytestr),
      0 <= cls < 8 -> 0 <= n <= 30 ->
      tag_identifier_decode (chr (cls * 32 + n) :: rest) = Ok (n, 1)) /\
  (forall (c : byte) (rest : bytestr) (number identifier_octets : Z),
      Z.land (ord c) 31 = 31 ->
      tag_identifier_decode (c :: rest) = Ok (number, identifier_octets) ->
      0 <= number < 128) /\
  (lvq_encode 127 = [x7f] /\ spec_lvq_value (lvq_encode 127) = 127 /\
   tag_identifier_decode (x1f :: lvq_encode 127) = Ok (127, 2)) /\
  (lvq_encode 128 = [x81; x00] /\ spec_lvq_value (lvq_encode 128) = 128 /\
   tag_identifier_decode (x1f :: lvq_encode 128) = Ok (1, 3)) /\
  (lvq_encode 16383 = [xff; x7f] /\
   spec_lvq_value (lvq_encode 16383) = 16383 /\
   tag_identifier_decode (x1f :: lvq_encode 16383) = Ok (127, 3)) /\
  (lvq_encode 16384 = [x81; x80; x00] /\
   spec_lvq_value (lvq_encode 16384) = 16384 /\
   tag_identifier_decode (x1f :: lvq_encode 16384) = Ok (1, 4)).
Proof.
  split; [|split].
  - intros cls n rest Hcls Hn.
    rewrite tag_identifier_decode_cons, ord_chr_small by lia.
    assert (Hlow : Z.land (cls * 32 + n) 31 = n).
    { change 31 with (Z.ones 5). rewrite Z.land_ones by lia.
      change (2 ^ 5) with 32. rewrite Z.add_comm, Z.mod_add by lia.
      apply Z.mod_small. lia. }
    rewrite Hlow.
    destruct (n =? 31) eqn:E; [apply Z.eqb_eq in E; lia|reflexivity].
  - intros c rest number ido Hc.
    rewrite tag_identifier_decode_cons, Hc. cbn [Z.eqb Pos.eqb].
    destruct (lvq_decode rest) as [[n sz]|] eqn:L; [|discriminate].
    cbn [bind]. intros H. apply Ok_inj in H. injection H as <- _.
    eapply lvq_decode_below_128. eassumption.
  - repeat split.
Qed.

(** C4 as stated fails: on [0x30, 0x80, 0x01] the first length octet is 0x80
    and one byte remains after the header, but [data_length] is 0. *)
Lemma C4_counterexample :
  let buf := [x30; x80; x01] in
  exists h,
    Header.init buf = Ok h /\
    py_index buf (Header.identifier_octets h) = Ok x80 /\
    Header.length_octets h = 1 /\
    len buf - Header.octets h = 1 /\
    Header.data_length h = 0 /\
    Header.data_length h <> len buf - Header.octets h.
Proof.
  cbv zeta. eexists. split; [reflexivity|].
  repeat split. discriminate.
Qed.

(** C4, amended: when the first length octet is exactly 0x80 the header
    decodes with [length_octets = 1] and [data_length = 0], so
    [total_octets = octets]; the count of all the buffer bytes that remain
    after the header is in [extra_data_length]. No flag is stored: what a
    caller observes is [get_type], which carries the suffix "-Indefinite". *)
Theorem C4_indefinite_length_amended :
  forall (buf : bytestr) (number identifier_octets : Z),
    tag_identifier_decode buf = Ok (number, identifier_octets) ->
    py_index buf identifier_octets = Ok x80 ->
    exists h,
      Header.init buf = Ok h /\
      Header.length_octets h = 1 /\
      Header.octets h = identifier_octets + 1 /\
      Header.data_length h = 0 /\
      Header.total_octets h = Header.octets h /\
      Header.extra_data_length h = len buf - Header.octets h /\
      (forall t, Tag.header t = Some h ->
                 exists base,
                   py_index Tag._type_name (Header.type h) = Ok base /\
                   Tag.get_type t = Ok (base ++ "-Indefinite")%string).
Proof.
  intros buf number ido Hid Hl.
  pose proof (tag_identifier_decode_bounds _ _ _ Hid) as [_ Hido].
  assert (Hex : exists h, Header.init buf = Ok h).
  { apply Header_init_Ok_iff. exists number, ido. split; [assumption|].
    eapply py_index_Ok_lt; [lia | eassumption]. }
  destruct Hex as [h H]. exists h. split; [assumption|].
  destruct (Header_init_inv _ _ H)
    as (c & rest & l & _ & _ & Hid' & Hl' & Htot & Hform).
  rewrite Hid in Hid'. injection Hid' as Hnum Hido'.
  rewrite <- Hido' in Hl'. rewrite Hl in Hl'. apply Ok_inj in Hl'. subst l.
  unfold indefinite_form, long_form, short_form in Hform.
  change (ord x80) with 128 in Hform.
  destruct Hform as [F|[F|F]]; try lia.
  destruct F as (_ & Hlo & Ho & Hd & He).
  repeat split; try lia.
  intros t Ht.
  destruct (Header_type_bool _ _ H) as [E|E];
    unfold Tag.get_type, Tag.header_attr; rewrite Ht; cbn [bind];
    rewrite E, Hd; eexists; split; reflexivity.
Qed.

Lemma C4_witness :
  exists h,
    Header.init [x30; x80; x01] = Ok h /\
    Header.length_octets h = 1 /\
    Header.data_length h = 0 /\
    Header.extra_data_length h = 1.
Proof.
  destruct (C4_indefinite_length_amended [x30; x80; x01] 16 1
              eq_refl eq_refl)
    as (h & Hh & Hlo & Ho & Hd & Ht & He & _).
  exists h. repeat split; try assumption.
  rewrite He, Ho. reflexivity.
Defined.

(** C8 as stated fails: [0x02, 0x05] decodes to a header with
    [total_octets = 7] on a buffer of 2 bytes. *)
Lemma C8_counterexample :
  let buf := [x02; x05] in
  exists h,
    Header.init buf = Ok h /\
    Header.total_octets h = 7 /\
    len buf = 2 /\
    len buf < Header.total_octets h.
Proof.
  cbv zeta. eexists. split; [reflexivity|]. repeat split.
Qed.

(** C8, amended: every decoded header has
    [octets + data_length = total_octets] and [number >= 0]; [total_octets]
    is not bounded by the buffer. With a short-form or indefinite length
    ([length_octets = 1]) [total_octets + extra_data_length = len(buffer)],
    so [total_octets <= len(buffer)] exactly when [extra_data_length >= 0];
    with a long-form length [extra_data_length] is 0. *)
Theorem C8_header_invariant_amended :
  forall (buf : bytestr) (h : Header.t),
    Header.init buf = Ok h ->
    Header.octets h + Header.data_length h = Header.total_octets h /\
    0 <= Header.number h /\
    0 <= Header.data_length h /\
    (Header.length_octets h = 1 ->
     Header.total_octets h + Header.extra_data_length h = len buf /\
     (Header.total_octets h <= len buf <-> 0 <= Header.extra_data_length h)) /\
    (Header.length_octets h <> 1 -> Header.extra_data_length h = 0).
Proof.
  intros buf h H.
  destruct (Header_init_inv _ _ H)
    as (c & rest & l & _ & _ & Hid & Hl & Htot & Hform).
  pose proof (tag_identifier_decode_bounds _ _ _ Hid) as [Hnum _].
  pose proof (ord_range l) as Hr.
  unfold indefinite_form, long_form, short_form in Hform.
  split; [lia|]. split; [assumption|]. split; [|split].
  - destruct Hform as [F|[F|F]]; try lia.
    destruct F as (_ & _ & _ & Hd & _). rewrite Hd.
    rewrite long_format_length_decode_value. apply be_value_range.
  - intros Hlo. destruct Hform as [F|[F|F]]; lia.
  - intros Hlo. destruct Hform as [F|[F|F]]; lia.
Qed.

Lemma C8_witness :
  exists h,
    Header.init [x02; x05] = Ok h /\
    Header.octets h + Header.data_length h = Header.total_octets h /\
    Header.total_octets h + Header.extra_data_length h = 2.
Proof.
  eexists. split; [reflexivity|].
  pose proof (C8_header_invariant_amended [x02; x05] _ eq_refl)
    as (Htot & _ & _ & Hshort & _).
  split; [exact Htot|]. apply Hshort. reflexivity.
Defined.

Lemma Header_init_bounds (buf : bytestr) (h : Header.t) :
  Header.init buf = Ok h ->
  2 <= Header.octets h /\
  0 <= Header.data_length h /\
  Header.total_octets h = Header.octets h + Header.data_length h.
Proof.
  intros H.
  destruct (Header_init_inv _ _ H)
    as (c & rest & l & _ & _ & Hid & Hl & Htot & Hform).
  pose proof (tag_identifier_decode_bounds _ _ _ Hid) as [_ Hido].
  pose proof (ord_range l) as Hr.
  unfold indefinite_form, long_form, short_form in Hform.
  split; [lia|]. split; [|assumption].
  destruct Hform as [F|[F|F]]; try lia.
  destruct F as (_ & _ & _ & Hd & _). rewrite Hd.
  rewrite long_format_length_decode_value. apply be_value_range.
Qed.

Lemma removelast_snoc_len {A : Type} (s : list A) :
  s <> [] -> exists p x, s = p ++ [x] /\ removelast s = p.
Proof.
  intros Hne. destruct (exists_last Hne) as (p & x & ->).
  exists p, x. split; [reflexivity|]. apply removelast_last.
Qed.

(** C3 as stated fails: [0x02, 0x01, 0x05] is a definite-length unit of
    exactly [total_octets] bytes; with its last byte removed the header still
    decodes, with [total_octets = 3] on a buffer of 2 bytes, and the tag
    decodes too: nothing is raised. *)
Lemma C3_counterexample :
  let buf := [x02; x01; x05] in
  let short := [x02; x01] in
  exists h h' t',
    Header.init buf = Ok h /\
    py_index buf (Header.identifier_octets h) = Ok x01 /\
    Header.total_octets h = len buf /\
    short = removelast buf /\
    Header.init short = Ok h' /\
    len short - 0 < Header.total_octets h' /\
    Tag.of_bytes short = Ok t'.
Proof.
  cbv zeta. do 3 eexists.
  split; [reflexivity|]. split; [reflexivity|]. split; [reflexivity|].
  split; [reflexivity|]. split; [reflexivity|]. split; reflexivity.
Qed.

(** C3, amended: a buffer exactly [total_octets] bytes long decodes; with
    the buffer one byte shorter and a value that is not empty the header
    decodes again, to the same type, number, header octets, [data_length] and
    [total_octets], which then exceeds [len(buffer)], and the tag decodes:
    nothing is raised. The decoder never compares [total_octets] with
    [len(buffer)]: [Header] succeeds exactly when the identifier octets decode
    and the first length octet is present. *)
Theorem C3_truncation_amended :
  forall (buf : bytestr) (h : Header.t),
    Header.init buf = Ok h ->
    Header.total_octets h = len buf ->
    (exists t, Tag.of_bytes buf = Ok t /\ Tag.header t = Some h) /\
    (1 <= Header.data_length h ->
     exists h' t',
       Header.init (removelast buf) = Ok h' /\
       same_envelope h h' /\
       len (removelast buf) < Header.total_octets h' /\
       Tag.of_bytes (removelast buf) = Ok t' /\
       Tag.header t' = Some h') /\
    (forall b : bytestr,
        (exists h0, Header.init b = Ok h0) <->
        (exists number identifier_octets,
            tag_identifier_decode b = Ok (number, identifier_octets) /\
            identifier_octets < len b)).
Proof.
  intros buf h H Htot. split; [|split].
  - exists (decoded_tag buf h). split; [|reflexivity].
    apply Tag_of_bytes_Ok. assumption.
  - intros Hdata.
    pose proof (Header_init_bounds _ _ H) as (Hoct & _ & Hsum).
    assert (Hne : buf <> []) by (intros ->; discriminate).
    destruct (removelast_snoc_len buf Hne) as (p & x & Hbuf & Hrm).
    rewrite Hrm. subst buf. rewrite len_app in Htot.
    change (len [x]) with 1 in Htot.
    destruct (Header_init_prefix p [x] [] h H ltac:(lia)) as (h' & H' & Henv).
    rewrite app_nil_r in H'.
    exists h', (decoded_tag p h'). split; [assumption|].
    split; [assumption|]. split; [|split; [|reflexivity]].
    + destruct Henv as (_ & _ & _ & _ & _ & _ & Ht). lia.
    + apply Tag_of_bytes_Ok. assumption.
  - intros b. apply Header_init_Ok_iff.
Qed.

Lemma C3_witness :
  (exists t, Tag.of_bytes [x02; x01; x05] = Ok t) /\
  (exists h', Header.init [x02; x01] = Ok h' /\
              len [x02; x01] < Header.total_octets h').
Proof.
  destruct (C3_truncation_amended [x02; x01; x05]
              (Header.mk 0 2 1 2 1 1 3 0) eq_refl eq_refl)
    as ((t & Ht & _) & Hshort & _).
  split; [exists t; exact Ht|].
  destruct (Hshort ltac:(cbn; lia)) as (h' & t' & Hh' & _ & Hlt & _).
  exists h'. split; [exact Hh' | exact Hlt].
Defined.

(** C1 as stated fails: the value span of
    [0x30, 0x06, 0x02, 0x01, 0x05, 0x02, 0x01, 0x07] is the concatenation of
    two complete child encodings, and the decoded tag has no nested tag. *)
Lemma C1_counterexample :
  let buf := [x30; x06; x02; x01; x05; x02; x01; x07] in
  exists t h h1 h2,
    Tag.of_bytes buf = Ok t /\
    Tag.header t = Some h /\
    Header.type h = 1 /\
    py_slice buf (Header.octets h) (Header.total_octets h)
      = [x02; x01; x05] ++ [x02; x01; x07] /\
    Header.init [x02; x01; x05] = Ok h1 /\ Header.total_octets h1 = 3 /\
    Header.init [x02; x01; x07] = Ok h2 /\ Header.total_octets h2 = 3 /\
    Tag.nested_tags t = [] /\
    List.length (Tag.nested_tags t) <> 2%nat.
Proof.
  cbv zeta. do 4 eexists.
  split; [reflexivity|]. split; [reflexivity|].
  repeat split. discriminate.
Qed.

(** C1, amended: decoding a constructed tag, whatever its value span, stores
    the span verbatim in [value] and leaves [nested_tags] empty: the decoder
    does not recurse into the span. Children are attached by the caller
    through [add_nested_tag]: when the value span is exactly the
    concatenation of two complete child encodings and the caller adds the
    tags decoded from them in encounter order, [nested_tags] holds the two
    children in that order; their [total_octets] add up to the parent's
    [data_length] exactly when the buffer holds the whole unit
    ([total_octets <= len(buffer)]), and to less on a shorter buffer, where
    the span is cut. *)
Theorem C1_constructed_children_amended :
  forall (buf : bytestr) (h : Header.t),
    Header.init buf = Ok h ->
    Header.type h = 1 ->
    exists t,
      Tag.of_bytes buf = Ok t /\
      Tag.header t = Some h /\
      Tag.nested_tags t = [] /\
      Tag.value t
      = Some (py_slice buf (Header.octets h) (Header.total_octets h)) /\
      forall (e1 e2 : bytestr) (c1 c2 : Tag.t),
        py_slice buf (Header.octets h) (Header.total_octets h) = e1 ++ e2 ->
        Tag.of_bytes e1 = Ok c1 -> Tag.total_octets c1 = Ok (len e1) ->
        Tag.of_bytes e2 = Ok c2 -> Tag.total_octets c2 = Ok (len e2) ->
        (exists t1 t2,
            Tag.add_nested_tag t c1 = Ok t1 /\
            Tag.add_nested_tag t1 c2 = Ok t2 /\
            Tag.nested_tags t2 = [c1; c2]) /\
        len e1 + len e2 <= Header.data_length h /\
        (Header.total_octets h <= len buf <->
         len e1 + len e2 = Header.data_length h).
Proof.
  intros buf h H Hty.
  pose proof (Header_init_bounds _ _ H) as (Hoct & Hdata & Hsum).
  exists (decoded_tag buf h).
  split; [apply Tag_of_bytes_Ok; assumption|].
  split; [reflexivity|]. split; [reflexivity|]. split.
  - unfold decoded_tag. cbn [Tag.value]. rewrite Hty. reflexivity.
  - intros e1 e2 c1 c2 Hspan Hc1 Hn1 Hc2 Hn2. split.
    + unfold Tag.add_nested_tag, Tag.header_attr, decoded_tag.
      cbn [Tag.header bind]. rewrite Hty. cbn [Z.eqb Pos.eqb].
      eexists. eexists. split; [reflexivity|].
      unfold Tag.set_nested_tags. cbn [Tag.header bind Tag.nested_tags].
      rewrite Hty. cbn [Z.eqb Pos.eqb app]. split; reflexivity.
    + assert (Hne : 0 < len e1).
      { destruct e1 as [|x e1].
        - apply Ok_inj in Hc1. subst c1. discriminate.
        - rewrite len_cons. pose proof (len_nonneg e1). lia. }
      pose proof (len_nonneg e2) as Hl2.
      assert (Hlen : len e1 + len e2
                     = Z.max 0 (Z.min (Header.total_octets h) (len buf)
                                - Header.octets h)).
      { rewrite <- len_app, <- Hspan. unfold len.
        rewrite py_slice_nonneg by lia.
        rewrite length_skipn, length_firstn. lia. }
      lia.
Qed.

Lemma C1_witness :
  let buf := [x30; x06; x02; x01; x05; x02; x01; x07] in
  exists t c1 c2,
    Tag.of_bytes buf = Ok t /\
    Tag.nested_tags t = [] /\
    Tag.value t = Some [x02; x01; x05; x02; x01; x07] /\
    Tag.of_bytes [x02; x01; x05] = Ok c1 /\
    Tag.of_bytes [x02; x01; x07] = Ok c2 /\
    (exists t1 t2,
        Tag.add_nested_tag t c1 = Ok t1 /\
        Tag.add_nested_tag t1 c2 = Ok t2 /\
        Tag.nested_tags t2 = [c1; c2]) /\
    len [x02; x01; x05] + len [x02; x01; x07] = 6.
Proof.
  intros buf.
  destruct (C1_constructed_children_amended buf
              (Header.mk 1 16 1 2 1 6 8 0) eq_refl eq_refl)
    as (t & Ht & _ & Hnil & Hval & Hkids).
  destruct (Hkids [x02; x01; x05] [x02; x01; x07]
              (decoded_tag [x02; x01; x05] (Header.mk 0 2 1 2 1 1 3 0))
              (decoded_tag [x02; x01; x07] (Header.mk 0 2 1 2 1 1 3 0))
              eq_refl eq_refl eq_refl eq_refl eq_refl)
    as (Hadd & _ & Hiff).
  exists t. do 2 eexists.
  split; [exact Ht|]. split; [exact Hnil|]. split; [exact Hval|].
  split; [reflexivity|]. split; [reflexivity|].
  split; [exact Hadd|]. apply Hiff. cbn. lia.
Defined.

(** * Further properties of the module *)

(** ** Identifier octets *)

Lemma lvq_decode_loop_Ok_inv (rest : bytestr) :
  forall values size values' size',
    lvq_decode_loop rest values size = Ok (values', size') ->
    exists pre d post,
      rest = pre ++ d :: post /\
      Forall continues pre /\ ord d < 128 /\
      size' = size + len pre + 1 /\
      values' = values ++ low7_groups (pre ++ [d]).
Proof.
  induction rest as [|c rest IH]; intros values size values' size' H.
  - discriminate.
  - cbn [lvq_decode_loop ord_str bind] in H. rewrite high_bit_clear in H.
    destruct (ord c <? 128) eqn:E.
    + apply Z.ltb_lt in E. apply Ok_inj in H. injection H as <- <-.
      exists [], c, rest. repeat split; try assumption; [constructor|].
      change (len (@nil byte)) with 0. lia.
    + apply Z.ltb_ge in E. apply IH in H.
      destruct H as (pre & d & post & -> & Hpre & Hd & -> & ->).
      exists (c :: pre), d, post. repeat split.
      * constructor; assumption.
      * assumption.
      * rewrite len_cons. lia.
      * rewrite <- app_assoc. reflexivity.
Qed.

Lemma lvq_decode_loop_Raise (rest : bytestr) :
  forall values size e,
    lvq_decode_loop rest values size = Raise e ->
    e = TypeError /\ Forall continues rest.
Proof.
  induction rest as [|c rest IH]; intros values size e H.
  - cbn in H. injection H as <-. split; constructor.
  - cbn [lvq_decode_loop ord_str bind] in H. rewrite high_bit_clear in H.
    destruct (ord c <? 128) eqn:E; [discriminate|].
    apply Z.ltb_ge in E. apply IH in H. destruct H as [-> Hall].
    split; [reflexivity|]. constructor; assumption.
Qed.

Lemma lvq_decode_loop_continues (rest : bytestr) :
  forall values size,
    Forall continues rest ->
    lvq_decode_loop rest values size = Raise TypeError.
Proof.
  induction rest as [|c rest IH]; intros values size Hall; [reflexivity|].
  inversion Hall as [|? ? Hc Hrest]; subst.
  cbn [lvq_decode_loop ord_str bind]. rewrite high_bit_clear.
  unfold continues in Hc.
  destruct (ord c <? 128) eqn:E; [apply Z.ltb_lt in E; lia|].
  apply IH. assumption.
Qed.

Lemma lvq_fold_lor (shift : Z) (values : list Z) (acc : Z) :
  fold_left (lvq_decode_step shift) values acc = fold_left Z.lor values acc.
Proof. reflexivity. Qed.

(** X1: the identifier octets [tag_identifier_decode] consumes. Short form:
    one octet, the number is its low five bits. Long form: the first octet,
    then every octet with the high bit set and the first octet with the high
    bit clear; the count covers them all, and the number is the bitwise OR of
    their 7-bit groups. *)
Theorem X1_identifier_octets_consumed :
  forall (buf : bytestr) (number identifier_octets : Z),
    tag_identifier_decode buf = Ok (number, identifier_octets) ->
    exists c rest,
      buf = c :: rest /\
      ((Z.land (ord c) 31 <> 31 /\ identifier_octets = 1 /\
        number = Z.land (ord c) 31 /\ 0 <= number <= 30) \/
       (Z.land (ord c) 31 = 31 /\
        exists pre d post,
          rest = pre ++ d :: post /\
          Forall continues pre /\ ord d < 128 /\
          identifier_octets = len pre + 2 /\
          number = fold_left Z.lor (low7_groups (pre ++ [d])) 0)).
Proof.
  intros buf number ido H. destruct buf as [|c rest]; [discriminate|].
  exists c, rest. split; [reflexivity|].
  rewrite tag_identifier_decode_cons in H.
  destruct (Z.land (ord c) 31 =? 31) eqn:E.
  - right. apply Z.eqb_eq in E. split; [assumption|].
    unfold lvq_decode in H.
    destruct (lvq_decode_loop rest [] 0) as [[values sz]|] eqn:L;
      [|discriminate].
    cbn [bind] in H. apply Ok_inj in H. injection H as <- <-.
    apply lvq_decode_loop_Ok_inv in L.
    destruct L as (pre & d & post & -> & Hpre & Hd & -> & ->).
    exists pre, d, post. repeat split; try assumption; lia.
  - left. apply Z.eqb_neq in E. apply Ok_inj in H. injection H as <- <-.
    assert (Hlow : 0 <= Z.land (ord c) 31 < 32).
    { change 31 with (Z.ones 5). rewrite Z.land_ones by lia.
      apply Z.mod_pos_bound. reflexivity. }
    repeat split; try assumption; try reflexivity; lia.
Qed.

Lemma X1_witness :
  exists c rest pre d post,
    [x1f; x81; x80; x00; x05] = c :: rest /\
    rest = pre ++ d :: post /\
    Forall continues pre /\ ord d < 128 /\
    4 = len pre + 2.
Proof.
  destruct (X1_identifier_octets_consumed [x1f; x81; x80; x00; x05] 1 4
              eq_refl)
    as (c & rest & Hbuf & [(Hno & _)|(_ & pre & d & post & Hr & Hp & Hd & Hn & _)]).
  - injection Hbuf as <- _. exfalso. apply Hno. reflexivity.
  - exists c, rest, pre, d, post. repeat split; assumption.
Defined.

(** ** Exceptions of [Header] *)

Lemma py_index_Raise {A : Type} (s : list A) (i : Z) (e : exn) :
  py_index s i = Raise e -> e = IndexError.
Proof.
  unfold py_index.
  destruct ((_ <? 0) || (len s <=? _)); [intros H; injection H as <-; reflexivity|].
  destruct (nth_error s _); [discriminate|].
  intros H. injection H as <-. reflexivity.
Qed.

Lemma Header_init_outcome (c : byte) (rest : bytestr) :
  match tag_identifier_decode (c :: rest) with
  | Raise e => Header.init (c :: rest) = Raise e
  | Ok (_, ido) =>
      (ido < len (c :: rest) /\ exists h, Header.init (c :: rest) = Ok h) \/
      (ido = len (c :: rest) /\ Header.init (c :: rest) = Raise IndexError)
  end.
Proof.
  destruct (tag_identifier_decode (c :: rest)) as [[n ido]|e] eqn:Hid.
  - pose proof (tag_identifier_decode_bounds _ _ _ Hid) as [_ Hb].
    destruct (Z.lt_ge_cases ido (len (c :: rest))) as [Hlt|Hge].
    + left. split; [assumption|]. apply Header_init_Ok_iff. eauto.
    + right. split; [lia|].
      destruct (Header.init (c :: rest)) as [h|e] eqn:H.
      * assert (Hex : exists h, Header.init (c :: rest) = Ok h) by eauto.
        apply Header_init_Ok_iff in Hex.
        destruct Hex as (n' & ido' & Hid' & Hlt). rewrite Hid in Hid'.
        injection Hid' as _ <-. lia.
      * f_equal. unfold Header.init in H.
        rewrite tag_type_decode_cons, Hid in H. cbn [bind] in H.
        unfold Header.length_decode in H.
        cbn [Header.identifier_octets] in H.
        destruct (py_index (c :: rest) ido) as [l|e'] eqn:Hl.
        -- cbn [bind] in H.
           destruct (ord l =? 128); [|destruct (Z.land (ord l) 128 =? 128)];
             discriminate.
        -- cbn [bind] in H. injection H as <-.
           eapply py_index_Raise. eassumption.
  - unfold Header.init. rewrite tag_type_decode_cons, Hid. reflexivity.
Qed.

Lemma tag_identifier_decode_Raise (c : byte) (rest : bytestr) (e : exn) :
  tag_identifier_decode (c :: rest) = Raise e <->
  e = TypeError /\ Z.land (ord c) 31 = 31 /\ Forall continues rest.
Proof.
  rewrite tag_identifier_decode_cons. unfold lvq_decode. split.
  - destruct (Z.land (ord c) 31 =? 31) eqn:E; [|discriminate].
    apply Z.eqb_eq in E.
    destruct (lvq_decode_loop rest [] 0) as [[v sz]|e'] eqn:L;
      [discriminate|].
    cbn [bind]. intros H. injection H as <-.
    apply lvq_decode_loop_Raise in L. tauto.
  - intros (-> & Hc & Hall). rewrite Hc. cbn [Z.eqb Pos.eqb].
    rewrite lvq_decode_loop_continues by assumption. reflexivity.
Qed.

(** X2: the exceptions of [Header(byte_string)]. It raises [TypeError]
    exactly when the first octet announces a long-form tag number and every
    octet after it has the high bit set (no octet ends the number);
    [IndexError] exactly when the string is empty or ends with its identifier
    octets, the first length octet missing; and nothing else. *)
Theorem X2_header_exceptions :
  forall buf : bytestr,
    (Header.init buf = Raise TypeError <->
     exists c rest, buf = c :: rest /\ Z.land (ord c) 31 = 31 /\
                    Forall continues rest) /\
    (Header.init buf = Raise IndexError <->
     buf = [] \/
     exists number, tag_identifier_decode buf = Ok (number, len buf)) /\
    Header.init buf <> Raise AttributeError.
Proof.
  intros buf. destruct buf as [|c rest].
  - split; [|split].
    + split; [discriminate|]. intros (c & rest & Hbuf & _). discriminate.
    + split; [auto|reflexivity].
    + discriminate.
  - pose proof (Header_init_outcome c rest) as Hout.
    destruct (tag_identifier_decode (c :: rest)) as [[n ido]|e] eqn:Hid.
    + assert (Hnot : ~ (Z.land (ord c) 31 = 31 /\ Forall continues rest)).
      { intros [Hc Hall].
        assert (Hr : tag_identifier_decode (c :: rest) = Raise TypeError)
          by (apply tag_identifier_decode_Raise; auto).
        congruence. }
      destruct Hout as [(Hlt & h & H)|(Heq & H)]; rewrite H.
      * split; [|split]; try discriminate.
        -- split; [discriminate|].
           intros (c' & rest' & Hbuf & Hc & Hall).
           injection Hbuf as <- <-. tauto.
        -- split; [discriminate|].
           intros [Hnil|(n' & Hid')]; [discriminate|].
           injection Hid' as _ Hido. lia.
      * split; [|split]; try discriminate.
        -- split; [discriminate|].
           intros (c' & rest' & Hbuf & Hc & Hall).
           injection Hbuf as <- <-. tauto.
        -- split; [|reflexivity]. intros _. right. exists n.
           rewrite Heq. reflexivity.
    + rewrite Hout.
      apply tag_identifier_decode_Raise in Hid.
      destruct Hid as (-> & Hc & Hall).
      split; [|split]; try discriminate.
      * split; [|reflexivity]. intros _. exists c, rest. auto.
      * split; [discriminate|].
        intros [Hnil|(n' & Hid')]; discriminate.
Qed.

(** ** The length octets *)

Lemma Header_init_at (ident tail : bytestr) (l : byte) (number : Z) :
  tag_identifier_decode (ident ++ l :: tail) = Ok (number, len ident) ->
  exists h,
    Header.init (ident ++ l :: tail) = Ok h /\
    Header.number h = number /\
    Header.identifier_octets h = len ident /\
    Header.total_octets h = Header.octets h + Header.data_length h /\
    (indefinite_form (ident ++ l :: tail) l h \/
     long_form (ident ++ l :: tail) l h \/
     short_form (ident ++ l :: tail) l h).
Proof.
  intros Hid.
  assert (Hex : exists h, Header.init (ident ++ l :: tail) = Ok h).
  { apply Header_init_Ok_iff. exists number, (len ident).
    split; [assumption|]. rewrite len_app, len_cons.
    pose proof (len_nonneg tail). lia. }
  destruct Hex as [h H]. exists h. split; [assumption|].
  destruct (Header_init_inv _ _ H)
    as (c & rest & l' & _ & _ & Hid' & Hl' & Htot & Hform).
  rewrite Hid in Hid'. injection Hid' as Hnum Hido.
  rewrite <- Hido in Hl'. rewrite py_index_app_at in Hl'.
  apply Ok_inj in Hl'. subst l'. auto.
Qed.

(** X3: short-form length. When the octet after the identifier octets is
    below 128, it is the data length: one length octet, [total_octets] is the
    header octets plus that value, and [extra_data_length] counts the bytes of
    the buffer beyond the unit (negative when the buffer is too short). *)
Theorem X3_short_form_length :
  forall (ident tail : bytestr) (l : byte) (number : Z),
    tag_identifier_decode (ident ++ l :: tail) = Ok (number, len ident) ->
    ord l < 128 ->
    exists h,
      Header.init (ident ++ l :: tail) = Ok h /\
      Header.length_octets h = 1 /\
      Header.octets h = len ident + 1 /\
      Header.data_length h = ord l /\
      Header.total_octets h = len ident + 1 + ord l /\
      Header.extra_data_length h = len tail - ord l.
Proof.
  intros ident tail l number Hid Hl.
  destruct (Header_init_at _ _ _ _ Hid) as (h & H & _ & Hido & Htot & Hform).
  exists h. split; [assumption|].
  unfold indefinite_form, long_form, short_form in Hform.
  rewrite len_app, len_cons in Hform.
  destruct Hform as [F|[F|F]]; lia.
Qed.

Lemma X3_witness :
  exists h,
    Header.init [x04; x03; x61; x62] = Ok h /\
    Header.length_octets h = 1 /\
    Header.octets h = 2 /\
    Header.data_length h = 3 /\
    Header.total_octets h = 5 /\
    Header.extra_data_length h = -1.
Proof.
  apply (X3_short_form_length [x04] [x61; x62] x03 4 eq_refl eq_refl).
Defined.

(** X4: long-form length, any count. When the octet [l] after the identifier
    octets is above 128, [k = l - 128] length octets are announced:
    [length_octets = 1 + k], [extra_data_length = 0], and [data_length] is
    the big-endian value of the octets that follow, at most [k] of them: when
    fewer than [k] remain in the buffer the ones present are decoded and
    nothing is raised. *)
Theorem X4_long_form_length_any_count :
  forall (ident tail : bytestr) (l : byte) (number : Z),
    tag_identifier_decode (ident ++ l :: tail) = Ok (number, len ident) ->
    128 < ord l ->
    exists h,
      Header.init (ident ++ l :: tail) = Ok h /\
      Header.length_octets h = 1 + (ord l - 128) /\
      Header.octets h = len ident + 1 + (ord l - 128) /\
      Header.data_length h =
        long_format_length_decode (firstn (Z.to_nat (ord l - 128)) tail) /\
      Header.extra_data_length h = 0.
Proof.
  intros ident tail l number Hid Hl.
  destruct (Header_init_at _ _ _ _ Hid) as (h & H & _ & Hido & Htot & Hform).
  exists h. split; [assumption|].
  unfold indefinite_form, long_form, short_form in Hform.
  destruct Hform as [F|[F|F]]; try lia.
  destruct F as (_ & Hlo & Ho & Hd & He).
  repeat split; try lia.
  rewrite Hd, Hido. f_equal.
  pose proof (len_nonneg ident).
  rewrite py_slice_nonneg by lia.
  replace (ident ++ l :: tail) with ((ident ++ [l]) ++ tail)
    by (rewrite <- app_assoc; reflexivity).
  assert (Hlen : List.length (ident ++ [l]) = Z.to_nat (len ident + 1)).
  { rewrite length_app. unfold len. cbn [List.length]. lia. }
  rewrite firstn_app, Hlen.
  rewrite firstn_all2 by lia.
  rewrite skipn_app, Hlen, skipn_all2 by lia.
  replace (Z.to_nat (len ident + 1) - Z.to_nat (len ident + 1))%nat
    with 0%nat by lia.
  cbn [skipn app]. f_equal. lia.
Qed.

Lemma X4_witness :
  exists h,
    Header.init [x04; x83; x01; x00] = Ok h /\
    Header.length_octets h = 4 /\
    Header.octets h = 5 /\
    Header.data_length h = 256 /\
    Header.extra_data_length h = 0.
Proof.
  apply (X4_long_form_length_any_count [x04] [x01; x00] x83 4 eq_refl eq_refl).
Defined.

(** X5: the shape of every decoded header: [type] is 0 or 1, the number is
    in 0..127, there is at least one identifier octet and the first length
    octet lies in the buffer, there are between 1 and 128 length octets,
    [octets = identifier_octets + length_octets], and [total_octets] is at
    least [octets]. *)
Theorem X5_header_shape :
  forall (buf : bytestr) (h : Header.t),
    Header.init buf = Ok h ->
    (Header.type h = 0 \/ Header.type h = 1) /\
    0 <= Header.number h < 128 /\
    1 <= Header.identifier_octets h < len buf /\
    1 <= Header.length_octets h <= 128 /\
    Header.octets h = Header.identifier_octets h + Header.length_octets h /\
    Header.octets h <= Header.total_octets h.
Proof.
  intros buf h H.
  pose proof (Header_type_bool _ _ H) as Hty.
  pose proof (Header_init_bounds _ _ H) as (_ & Hd & Hsum).
  destruct (Header_init_inv _ _ H)
    as (c & rest & l & Hbuf & _ & Hid & Hl & _ & Hform).
  pose proof (tag_identifier_decode_bounds _ _ _ Hid) as [_ Hido].
  assert (Hlt : Header.identifier_octets h < len buf)
    by (eapply py_index_Ok_lt; [|eassumption]; lia).
  pose proof (ord_range l) as Hr.
  assert (Hnum : 0 <= Header.number h < 128).
  { subst buf. rewrite tag_identifier_decode_cons in Hid.
    destruct (Z.land (ord c) 31 =? 31) eqn:E.
    - destruct (lvq_decode rest) as [[n sz]|] eqn:L; [|discriminate].
      cbn [bind] in Hid. apply Ok_inj in Hid. injection Hid as Hn _.
      rewrite <- Hn. eapply lvq_decode_below_128. eassumption.
    - apply Ok_inj in Hid. injection Hid as Hn _. rewrite <- Hn.
      change 31 with (Z.ones 5). rewrite Z.land_ones by lia.
      pose proof (Z.mod_pos_bound (ord c) (2 ^ 5) ltac:(reflexivity)) as Hm.
      change (2 ^ 5) with 32 in *. lia. }
  unfold indefinite_form, long_form, short_form in Hform.
  split; [assumption|]. split; [assumption|].
  destruct Hform as [F|[F|F]]; repeat split; lia.
Qed.

Lemma X5_witness :
  exists h,
    Header.init [x1f; xff; x7f; x81; x05] = Ok h /\
    0 <= Header.number h < 128 /\
    Header.octets h = Header.identifier_octets h + Header.length_octets h.
Proof.
  eexists. split; [reflexivity|].
  pose proof (X5_header_shape [x1f; xff; x7f; x81; x05] _ eq_refl)
    as (_ & Hn & _ & _ & Ho & _).
  split; [exact Hn | exact Ho].
Defined.

(** ** [long_format_length_decode] *)

Lemma be_value_snoc (s : bytestr) (c : byte) :
  be_value (s ++ [c]) = 256 * be_value s + ord c.
Proof.
  induction s as [|a s IH].
  - cbn [app be_value]. change (len (@nil byte)) with 0. cbn. lia.
  - cbn [app be_value]. rewrite IH, len_app. change (len [c]) with 1.
    pose proof (len_nonneg s).
    replace (8 * (len s + 1)) with (8 + 8 * len s) by lia.
    rewrite Z.pow_add_r by lia. change (2 ^ 8) with 256. ring.
Qed.

Lemma chr_ord (c : byte) : chr (ord c) = c.
Proof.
  unfold chr. rewrite Z.mod_small by apply ord_range.
  unfold ord. rewrite N2Z.id, Byte.of_to_N. reflexivity.
Qed.

Lemma chr_mod (x y : Z) : x mod 256 = y mod 256 -> chr x = chr y.
Proof. unfold chr. intros ->. reflexivity. Qed.

Lemma be_octets_mod (k : nat) :
  forall n n',
    n mod 2 ^ (8 * Z.of_nat k) = n' mod 2 ^ (8 * Z.of_nat k) ->
    be_octets k n = be_octets k n'.
Proof.
  induction k as [|k IH]; intros n n' H; [reflexivity|].
  cbn [be_octets].
  replace (8 * Z.of_nat (S k)) with (8 * Z.of_nat k + 8) in H by lia.
  rewrite Z.pow_add_r in H by lia. change (2 ^ 8) with 256 in H.
  assert (Hp : 0 < 2 ^ (8 * Z.of_nat k)) by (apply Z.pow_pos_nonneg; lia).
  rewrite !Z.rem_mul_r in H by lia.
  pose proof (Z.mod_pos_bound n _ Hp) as Ha.
  pose proof (Z.mod_pos_bound n' _ Hp) as Ha'.
  pose proof (Z.mod_pos_bound (n / 2 ^ (8 * Z.of_nat k)) 256 ltac:(lia)) as Hb.
  pose proof (Z.mod_pos_bound (n' / 2 ^ (8 * Z.of_nat k)) 256 ltac:(lia))
    as Hb'.
  assert (Hhigh : (n / 2 ^ (8 * Z.of_nat k)) mod 256
                  = (n' / 2 ^ (8 * Z.of_nat k)) mod 256) by nia.
  assert (Hlow : n mod 2 ^ (8 * Z.of_nat k) = n' mod 2 ^ (8 * Z.of_nat k))
    by nia.
  f_equal.
  - apply chr_mod. rewrite !Z.shiftr_div_pow2 by lia. exact Hhigh.
  - apply IH. exact Hlow.
Qed.

Lemma be_octets_be_value (s : bytestr) :
  be_octets (List.length s) (be_value s) = s.
Proof.
  induction s as [|c s IH]; [reflexivity|].
  cbn [List.length be_octets be_value].
  pose proof (be_value_range s) as Hv. unfold len in *.
  assert (Hp : 0 < 2 ^ (8 * Z.of_nat (List.length s)))
    by (apply Z.pow_pos_nonneg; lia).
  f_equal.
  - rewrite Z.shiftr_div_pow2 by lia.
    rewrite Z.div_add_l by lia. rewrite Z.div_small by assumption.
    rewrite Z.add_0_r. apply chr_ord.
  - transitivity (be_octets (List.length s) (be_value s)); [|exact IH].
    apply be_octets_mod.
    rewrite Z.add_comm, Z.mod_add by lia. reflexivity.
Qed.

(** X6: [long_format_length_decode] reads its argument as a big-endian
    number: the empty string gives 0, appending an octet multiplies by 256
    and adds it, a leading zero octet changes nothing, and the result of [k]
    octets lies in [0, 2^(8k)). *)
Theorem X6_long_format_length_is_big_endian :
  forall (s : bytestr) (c : byte),
    long_format_length_decode [] = 0 /\
    long_format_length_decode (s ++ [c])
      = 256 * long_format_length_decode s + ord c /\
    long_format_length_decode (x00 :: s) = long_format_length_decode s /\
    0 <= long_format_length_decode s < 2 ^ (8 * len s).
Proof.
  intros s c. rewrite !long_format_length_decode_value.
  split; [reflexivity|]. split; [apply be_value_snoc|].
  split; [|apply be_value_range].
  cbn [be_value]. change (ord x00) with 0. lia.
Qed.

(** X7: round trips of [long_format_length_decode] with the big-endian
    encoding, for any number of octets: decoding the [k]-octet encoding of an
    [n] that fits in [8k] bits gives [n], and encoding what a string decodes
    to, on as many octets, gives the string back (so two strings of the same
    length with the same value are equal). *)
Theorem X7_long_format_length_round_trip :
  (forall (k : nat) (n : Z),
      0 <= n < 2 ^ (8 * Z.of_nat k) ->
      long_format_length_decode (be_octets k n) = n) /\
  (forall s : bytestr,
      be_octets (List.length s) (long_format_length_decode s) = s) /\
  (forall s s' : bytestr,
      List.length s = List.length s' ->
      long_format_length_decode s = long_format_length_decode s' ->
      s = s').
Proof.
  split; [|split].
  - intros k n Hn.
    rewrite long_format_length_decode_value, be_value_be_octets.
    apply Z.mod_small. assumption.
  - intros s. rewrite long_format_length_decode_value.
    apply be_octets_be_value.
  - intros s s' Hlen Hval.
    rewrite !long_format_length_decode_value in Hval.
    rewrite <- (be_octets_be_value s), <- (be_octets_be_value s').
    rewrite Hlen, Hval. reflexivity.
Qed.

Lemma X7_witness :
  long_format_length_decode (be_octets 6 1099511627775) = 1099511627775 /\
  be_octets 3 (long_format_length_decode [x00; x01; x2c]) = [x00; x01; x2c].
Proof.
  split.
  - apply (proj1 X7_long_format_length_round_trip 6%nat 1099511627775).
    cbn. lia.
  - apply (proj1 (proj2 X7_long_format_length_round_trip) [x00; x01; x2c]).
Defined.

(** ** The default value interpreter *)

Lemma hex_pair_value (c : byte) :
  unhex_digit (hex_digit (ord c / 16)) * 16
  + unhex_digit (hex_digit (ord c mod 16)) = ord c.
Proof. destruct c; reflexivity. Qed.

Lemma ord_inj (c c' : byte) : ord c = ord c' -> c = c'.
Proof. intros H. rewrite <- (chr_ord c), <- (chr_ord c'), H. reflexivity. Qed.

Lemma hex_digit_In (v : Z) :
  0 <= v < 16 -> In (hex_digit v) (list_byte_of_string "0123456789abcdef").
Proof.
  intros Hv. replace v with (Z.of_nat (Z.to_nat v)) by lia.
  assert (Hn : (Z.to_nat v < 16)%nat) by lia.
  generalize dependent (Z.to_nat v). intros n Hn.
  do 16 (destruct n as [|n];
         [cbn; repeat first [left; reflexivity | right]|]).
  lia.
Qed.

Lemma encode_hex_inj (s : bytestr) :
  forall s', encode_hex s = encode_hex s' -> s = s'.
Proof.
  induction s as [|c s IH]; intros [|c' s'] H; try discriminate.
  - reflexivity.
  - unfold encode_hex in H. cbn [flat_map app] in H.
    injection H as Hhi Hlo Hrest. f_equal.
    + apply ord_inj.
      rewrite <- (hex_pair_value c), <- (hex_pair_value c'), Hhi, Hlo.
      reflexivity.
    + apply IH. exact Hrest.
Qed.

(** X8: the default interpreter [decode_value] is a lossless rendering: two
    characters per octet, each a lower-case hexadecimal digit, the octet's
    value being 16 times the first digit plus the second; distinct values
    never get the same rendering. *)
Theorem X8_decode_value_is_lossless_hex :
  forall (self : Tag.t) (s s' : bytestr),
    len (Tag.decode_value self s) = 2 * len s /\
    Forall (fun d => In d (list_byte_of_string "0123456789abcdef"))
           (Tag.decode_value self s) /\
    (forall c, Tag.decode_value self [c]
               = [hex_digit (ord c / 16); hex_digit (ord c mod 16)] /\
               unhex_digit (hex_digit (ord c / 16)) * 16
               + unhex_digit (hex_digit (ord c mod 16)) = ord c) /\
    Tag.decode_value self (s ++ s')
      = Tag.decode_value self s ++ Tag.decode_value self s' /\
    (Tag.decode_value self s = Tag.decode_value self s' -> s = s').
Proof.
  intros self s s'. unfold Tag.decode_value.
  split; [apply encode_hex_len|]. split; [|split; [|split]].
  - unfold encode_hex. induction s as [|c s IH]; [constructor|].
    cbn [flat_map app]. pose proof (ord_range c) as Hr.
    constructor; [|constructor; [|exact IH]]; apply hex_digit_In.
    + split; [apply Z.div_pos; lia|].
      apply Z.div_lt_upper_bound; lia.
    + apply Z.mod_pos_bound. lia.
  - intros c. split; [reflexivity | apply hex_pair_value].
  - unfold encode_hex. apply flat_map_app.
  - apply encode_hex_inj.
Qed.

(** ** Constructing a [Tag] *)

Lemma Tag_init_cons (c : byte) (s : bytestr) (lv : bool)
    (name : option bytestr) :
  Tag.init None (Some (c :: s)) lv name =
  h <- Header.init (c :: s) ;;
  Ok (Tag.mk (Some h)
             (if lv then Tag.value (decoded_tag (c :: s) h) else None)
             [] lv name).
Proof.
  unfold Tag.init, Tag.decode. cbn [Tag.header].
  destruct (Header.init (c :: s)) as [h|e] eqn:H; cbn [bind]; [|reflexivity].
  unfold Tag.set_header. cbn [Tag.load_value Tag.value Tag.nested_tags Tag.name].
  destruct lv; [|reflexivity].
  unfold Tag.header_attr at 1. cbn [Tag.header bind].
  unfold decoded_tag. cbn [Tag.value].
  destruct (Header_type_bool _ _ H) as [Hty|Hty]; rewrite Hty; reflexivity.
Qed.

(** X9: [Tag(byte_string=buf, load_value=lv, name=name)] on a string that is
    not empty raises exactly what [Header(buf)] raises; when the header
    decodes, the tag holds it, the given name and flag, no nested tag, and a
    value only if [load_value] is set: the hex rendering of the value span for
    a primitive tag, the span itself for a constructed one. *)
Theorem X9_tag_init_follows_header :
  forall (buf : bytestr) (lv : bool) (name : option bytestr),
    buf <> [] ->
    (forall e, Tag.init None (Some buf) lv name = Raise e <->
               Header.init buf = Raise e) /\
    (forall h, Header.init buf = Ok h ->
               let span :=
                 py_slice buf (Header.octets h) (Header.total_octets h) in
               Tag.init None (Some buf) lv name =
               Ok (Tag.mk (Some h)
                          (if lv
                           then Some (if Header.type h =? 0
                                      then encode_hex span else span)
                           else None)
                          [] lv name)).
Proof.
  intros buf lv name Hne. destruct buf as [|c s]; [congruence|].
  rewrite Tag_init_cons. split.
  - intros e. destruct (Header.init (c :: s)) as [h|e']; cbn [bind].
    + split; discriminate.
    + split; intros E; injection E as <-; reflexivity.
  - intros h H. rewrite H. reflexivity.
Qed.

Lemma X9_witness :
  Tag.init None (Some [x1f; x81]) false None = Raise TypeError /\
  Tag.init None (Some [x04; x02; x68; x69]) true (Some [x6e])
  = Ok (Tag.mk (Some (Header.mk 0 4 1 2 1 2 4 0))
               (Some (list_byte_of_string "6869")) [] true (Some [x6e])).
Proof.
  split.
  - apply (proj1 (X9_tag_init_follows_header [x1f; x81] false None
                    ltac:(discriminate))).
    reflexivity.
  - apply (proj2 (X9_tag_init_follows_header [x04; x02; x68; x69] true
                    (Some [x6e]) ltac:(discriminate))
             (Header.mk 0 4 1 2 1 2 4 0)).
    reflexivity.
Defined.

(** X10: a tag built with a header of the caller's never decodes one from
    the buffer and never raises: the tag keeps the given header, and its
    value, if any, is cut from the buffer at that header's [octets] and
    [total_octets]. *)
Theorem X10_tag_init_with_header :
  forall (h : Header.t) (byte_string : option bytestr) (lv : bool)
         (name : option bytestr),
  exists t,
    Tag.init (Some h) byte_string lv name = Ok t /\
    Tag.header t = Some h /\
    Tag.nested_tags t = [] /\
    Tag.load_value t = lv /\
    Tag.name t = name /\
    Tag.value t =
      match byte_string with
      | Some (c :: s) =>
          let span :=
            py_slice (c :: s) (Header.octets h) (Header.total_octets h) in
          if lv then
            if Header.type h =? 0 then Some (encode_hex span)
            else if Header.type h =? 1 then Some span
            else None
          else None
      | _ => None
      end.
Proof.
  intros h byte_string lv name. unfold Tag.init.
  destruct byte_string as [[|c s]|].
  - eexists. repeat split.
  - unfold Tag.decode. cbn [Tag.header bind Tag.load_value].
    destruct lv; [|eexists; repeat split].
    unfold Tag.header_attr at 1. cbn [Tag.header bind].
    unfold Tag.decode_primitive, Tag.decode_constructed, Tag.header_attr.
    cbn [Tag.header bind].
    destruct (Header.type h =? 0); [|destruct (Header.type h =? 1)];
      eexists; repeat split.
  - eexists. repeat split.
Qed.

(** X11: without a byte string ([None] or the empty string) and without a
    header, [Tag] decodes nothing: the header stays [None], and every
    accessor, [get_type] and [add_nested_tag] raise [AttributeError]. *)
Theorem X11_tag_without_header :
  forall (byte_string : option bytestr) (lv : bool) (name : option bytestr)
         (tag : Tag.t),
    byte_string = None \/ byte_string = Some [] ->
    exists t,
      Tag.init None byte_string lv name = Ok t /\
      Tag.header t = None /\ Tag.value t = None /\
      Tag.number t = Raise AttributeError /\
      Tag.type t = Raise AttributeError /\
      Tag.header_octets t = Raise AttributeError /\
      Tag.total_octets t = Raise AttributeError /\
      Tag.data_length t = Raise AttributeError /\
      Tag.get_type t = Raise AttributeError /\
      Tag.add_nested_tag t tag = Raise AttributeError.
Proof.
  intros byte_string lv name tag [-> | ->];
    eexists; (split; [reflexivity|]); repeat split.
Qed.

Lemma X11_witness :
  exists t,
    Tag.init None (Some []) true None = Ok t /\
    Tag.get_type t = Raise AttributeError.
Proof.
  destruct (X11_tag_without_header (Some []) true None
              (Tag.mk None None [] true None) (or_intror eq_refl))
    as (t & Ht & _ & _ & _ & _ & _ & _ & _ & Hg & _).
  exists t. split; [exact Ht | exact Hg].
Defined.

(** ** Nested tags *)

Lemma add_nested_tags_Raise (tags : list Tag.t) (e : exn) :
  fold_left (fun r tag => self <- r ;; Tag.add_nested_tag self tag)
            tags (Raise e) = Raise e.
Proof. induction tags as [|t tags IH]; [reflexivity|]. exact IH. Qed.

Lemma set_nested_tags_same (self : Tag.t) :
  Tag.set_nested_tags self (Tag.nested_tags self) = self.
Proof. destruct self. reflexivity. Qed.

(** X12: adding a sequence of tags one after the other. On a constructed
    tag they are all appended, in the order given, after the ones already
    there, and nothing else changes; on a tag of any other type the tag is
    left as it was. *)
Theorem X12_add_nested_tags_in_order :
  forall (self : Tag.t) (h : Header.t) (tags : list Tag.t),
    Tag.header self = Some h ->
    (Header.type h = 1 ->
     add_nested_tags self tags
     = Ok (Tag.set_nested_tags self (Tag.nested_tags self ++ tags))) /\
    (Header.type h <> 1 -> add_nested_tags self tags = Ok self).
Proof.
  intros self h tags Hh. unfold add_nested_tags. split.
  - intros Hty. revert self Hh.
    induction tags as [|t tags IH]; intros self Hh.
    + cbn [fold_left]. rewrite app_nil_r, set_nested_tags_same. reflexivity.
    + cbn [fold_left bind]. unfold Tag.add_nested_tag at 2.
      unfold Tag.header_attr. rewrite Hh. cbn [bind]. rewrite Hty.
      cbn [Z.eqb Pos.eqb].
      rewrite IH by (destruct self; exact Hh).
      destruct self. cbn [Tag.set_nested_tags Tag.header Tag.value
                            Tag.nested_tags Tag.load_value Tag.name].
      rewrite <- app_assoc. reflexivity.
  - intros Hty. induction tags as [|t tags IH]; [reflexivity|].
    cbn [fold_left bind]. unfold Tag.add_nested_tag at 2.
    unfold Tag.header_attr. rewrite Hh. cbn [bind].
    apply Z.eqb_neq in Hty. rewrite Hty. exact IH.
Qed.

Lemma X12_witness :
  let leaf := decoded_tag [x02; x01; x05] (Header.mk 0 2 1 2 1 1 3 0) in
  let other := decoded_tag [x02; x01; x07] (Header.mk 0 2 1 2 1 1 3 0) in
  let seq :=
    decoded_tag [x30; x06; x02; x01; x05; x02; x01; x07]
                (Header.mk 1 16 1 2 1 6 8 0) in
  add_nested_tags seq [leaf; other]
  = Ok (Tag.set_nested_tags seq [leaf; other]) /\
  add_nested_tags leaf [other; other] = Ok leaf.
Proof.
  intros leaf other seq. split.
  - apply (proj1 (X12_add_nested_tags_in_order seq
                    (Header.mk 1 16 1 2 1 6 8 0) [leaf; other] eq_refl)).
    reflexivity.
  - apply (proj2 (X12_add_nested_tags_in_order leaf
                    (Header.mk 0 2 1 2 1 1 3 0) [other; other] eq_refl)).
    discriminate.
Defined.

(** ** The value span *)

Lemma py_slice_len {A : Type} (s : list A) (a b : Z) :
  0 <= a -> 0 <= b ->
  len (py_slice s a b) = Z.max 0 (Z.min b (len s) - a).
Proof.
  intros Ha Hb. rewrite py_slice_nonneg by assumption.
  unfold len. rewrite length_skipn, length_firstn. lia.
Qed.

Lemma py_slice_split {A : Type} (s : list A) (a b : Z) :
  0 <= a <= b -> py_slice s 0 a ++ py_slice s a b = py_slice s 0 b.
Proof.
  intros Hab. rewrite !py_slice_nonneg by lia.
  change (Z.to_nat 0) with 0%nat. cbn [skipn].
  rewrite <- (firstn_skipn (Z.to_nat a) (firstn (Z.to_nat b) s)) at 2.
  f_equal. rewrite firstn_firstn. f_equal. lia.
Qed.

(** X13: the value span a tag is decoded from. It is the part of the buffer
    from [octets] to [total_octets], cut at the end of the buffer without an
    exception: as long as [data_length] when the buffer holds the whole unit
    (header octets and span then make up the first [total_octets] bytes), and
    shorter, just the bytes present, when the buffer ends before
    [total_octets]. The value of the decoded tag is the span itself
    (constructed) or [decode_value] of the span, twice as long
    (primitive). *)
Theorem X13_value_span :
  forall (buf : bytestr) (h : Header.t),
    Header.init buf = Ok h ->
    let span := py_slice buf (Header.octets h) (Header.total_octets h) in
    len span
    = Z.max 0 (Z.min (Header.total_octets h) (len buf) - Header.octets h) /\
    len span <= Header.data_length h /\
    (Header.total_octets h <= len buf ->
     len span = Header.data_length h /\
     py_slice buf 0 (Header.octets h) ++ span
     = py_slice buf 0 (Header.total_octets h)) /\
    (Header.octets h <= len buf < Header.total_octets h ->
     len span = len buf - Header.octets h /\
     len span < Header.data_length h) /\
    exists t v,
      Tag.of_bytes buf = Ok t /\ Tag.header t = Some h /\
      Tag.value t = Some v /\
      (Header.type h = 0 -> v = Tag.decode_value t span) /\
      (Header.type h = 1 -> v = span) /\
      len v = (if Header.type h =? 0 then 2 * len span else len span).
Proof.
  intros buf h H span.
  pose proof (Header_init_bounds _ _ H) as (Hoct & Hd & Hsum).
  assert (Hlen : len span = Z.max 0 (Z.min (Header.total_octets h) (len buf)
                                     - Header.octets h))
    by (apply py_slice_len; lia).
  split; [exact Hlen|]. split; [lia|]. split; [|split].
  - intros Hle. split; [lia|]. apply py_slice_split. lia.
  - intros Hlt. lia.
  - exists (decoded_tag buf h). eexists.
    split; [apply Tag_of_bytes_Ok; assumption|].
    split; [reflexivity|]. split; [reflexivity|].
    split; [|split].
    + intros Hty. rewrite Hty. reflexivity.
    + intros Hty. rewrite Hty. reflexivity.
    + destruct (Header.type h =? 0); [apply encode_hex_len | reflexivity].
Qed.

Lemma X13_witness :
  exists h t v,
    Header.init [x04; x05; x61; x62] = Ok h /\
    len (py_slice [x04; x05; x61; x62] (Header.octets h)
                  (Header.total_octets h)) = 2 /\
    Header.data_length h = 5 /\
    Tag.of_bytes [x04; x05; x61; x62] = Ok t /\
    Tag.value t = Some v /\
    v = list_byte_of_string "6162".
Proof.
  destruct (X13_value_span [x04; x05; x61; x62]
              (Header.mk 0 4 1 2 1 5 7 (-3)) eq_refl)
    as (Hlen & _ & _ & _ & t & v & Ht & _ & Hv & Hprim & _).
  eexists. exists t, v. split; [reflexivity|].
  split; [exact Hlen|]. split; [reflexivity|].
  split; [exact Ht|]. split; [exact Hv|].
  rewrite (Hprim eq_refl). reflexivity.
Defined.

(** ** A unit inside a longer buffer *)

Lemma Header_init_extra (buf : bytestr) (h : Header.t) :
  Header.init buf = Ok h ->
  (Header.length_octets h = 1 ->
   Header.total_octets h + Header.extra_data_length h = len buf) /\
  (Header.length_octets h <> 1 -> Header.extra_data_length h = 0).
Proof.
  intros H.
  destruct (Header_init_inv _ _ H)
    as (c & rest & l & _ & _ & _ & _ & Htot & Hform).
  pose proof (ord_range l) as Hr.
  unfold indefinite_form, long_form, short_form in Hform.
  destruct Hform as [F|[F|F]]; split; intros; lia.
Qed.

(** X14: the header is decoded from the header octets alone. Whatever
    follows them in the buffer, the type, number, octet counts,
    [data_length] and [total_octets] are the same; only [extra_data_length]
    follows the length of the buffer, for a short-form or indefinite length
    (it stays 0 for a long-form length). *)
Theorem X14_header_depends_on_header_octets :
  forall (p q q' : bytestr) (h : Header.t),
    Header.init (p ++ q) = Ok h ->
    Header.octets h <= len p ->
    exists h',
      Header.init (p ++ q') = Ok h' /\
      same_envelope h h' /\
      (Header.length_octets h = 1 ->
       Header.extra_data_length h' - Header.extra_data_length h
       = len q' - len q) /\
      (Header.length_octets h <> 1 ->
       Header.extra_data_length h' = 0 /\ Header.extra_data_length h = 0).
Proof.
  intros p q q' h H Hoct.
  destruct (Header_init_prefix p q q' h H Hoct) as (h' & H' & Henv).
  exists h'. split; [assumption|]. split; [assumption|].
  pose proof (Header_init_extra _ _ H) as [He1 He2].
  pose proof (Header_init_extra _ _ H') as [He1' He2'].
  destruct Henv as (_ & _ & _ & _ & Hlo & _ & Ht).
  rewrite !len_app in *. split; intros Hl.
  - specialize (He1 Hl). specialize (He1' ltac:(lia)). lia.
  - split; [apply He2'; lia | apply He2; assumption].
Qed.

Lemma X14_witness :
  exists h',
    Header.init ([x04; x02; x68; x69] ++ [x05; x00]) = Ok h' /\
    same_envelope (Header.mk 0 4 1 2 1 2 4 0) h' /\
    Header.extra_data_length h' - 0 = 2 - 0.
Proof.
  destruct (X14_header_depends_on_header_octets
              [x04; x02; x68; x69] [] [x05; x00]
              (Header.mk 0 4 1 2 1 2 4 0) eq_refl ltac:(cbn; lia))
    as (h' & H' & Henv & He & _).
  exists h'. split; [exact H'|]. split; [exact Henv|].
  apply He. reflexivity.
Defined.

(** X15: walking sibling units. When a buffer starts with a complete unit
    [e1] (one that decodes alone with [total_octets = len(e1)]), decoding the
    buffer gives a tag with the same value as the tag of [e1] alone, and a
    header with the same type, number, octet counts, [data_length] and
    [total_octets]; only [extra_data_length] differs: with a short-form or
    indefinite length it is 0 for [e1] alone and the number of bytes that
    follow [e1] in the buffer, with a long-form length it is 0 in both. The
    rest of the buffer starts at [total_octets]: [buf[:total_octets]] is [e1]
    and [buf[total_octets:]] is what follows. *)
Theorem X15_first_unit_of_a_sequence :
  forall (e1 e2 : bytestr) (h1 : Header.t),
    Header.init e1 = Ok h1 ->
    Header.total_octets h1 = len e1 ->
    exists h t1 t,
      Header.init (e1 ++ e2) = Ok h /\
      same_envelope h1 h /\
      (Header.length_octets h1 = 1 ->
       Header.extra_data_length h1 = 0 /\
       Header.extra_data_length h = len e2) /\
      (Header.length_octets h1 <> 1 ->
       Header.extra_data_length h1 = 0 /\ Header.extra_data_length h = 0) /\
      Tag.of_bytes e1 = Ok t1 /\ Tag.header t1 = Some h1 /\
      Tag.of_bytes (e1 ++ e2) = Ok t /\ Tag.header t = Some h /\
      Tag.value t = Tag.value t1 /\
      Tag.nested_tags t = Tag.nested_tags t1 /\
      py_slice (e1 ++ e2) 0 (Header.total_octets h) = e1 /\
      py_slice_from (e1 ++ e2) (Header.total_octets h) = e2.
Proof.
  intros e1 e2 h1 H Htot.
  pose proof (Header_init_bounds _ _ H) as (Hoct & Hd & Hsum).
  assert (H0 : Header.init (e1 ++ []) = Ok h1) by (rewrite app_nil_r; exact H).
  destruct (Header_init_prefix e1 [] e2 h1 H0 ltac:(lia))
    as (h & Hh & Henv).
  exists h, (decoded_tag e1 h1), (decoded_tag (e1 ++ e2) h).
  split; [assumption|]. split; [assumption|].
  pose proof (Header_init_extra _ _ H) as [He1 He2].
  pose proof (Header_init_extra _ _ Hh) as [He1' He2'].
  destruct Henv as (Hty & _ & _ & Ho & Hlo & _ & Ht).
  pose proof (len_nonneg e1) as Hl1.
  rewrite len_app in He1'.
  split; [intros Hl; specialize (He1 Hl); specialize (He1' ltac:(lia)); lia|].
  split; [intros Hl; split; [apply He2; assumption | apply He2'; lia]|].
  split; [apply Tag_of_bytes_Ok; assumption|]. split; [reflexivity|].
  split; [apply Tag_of_bytes_Ok; assumption|]. split; [reflexivity|].
  split; [|split; [reflexivity|split]].
  - unfold decoded_tag. cbn [Tag.value]. rewrite Hty, Ho, Ht.
    rewrite py_slice_app_prefix by lia. reflexivity.
  - rewrite Ht, Htot, py_slice_nonneg by lia.
    change (Z.to_nat 0) with 0%nat. cbn [skipn].
    unfold len. rewrite Nat2Z.id, firstn_app, Nat.sub_diag.
    rewrite firstn_all. cbn [firstn]. apply app_nil_r.
  - rewrite Ht, Htot, py_slice_from_nonneg by lia.
    unfold len. rewrite Nat2Z.id, skipn_app, Nat.sub_diag, skipn_all.
    reflexivity.
Qed.

Lemma X15_witness :
  exists h t,
    Header.init ([x02; x01; x05] ++ [x02; x01; x07]) = Ok h /\
    Header.extra_data_length h = 3 /\
    Tag.of_bytes ([x02; x01; x05] ++ [x02; x01; x07]) = Ok t /\
    Tag.header t = Some h /\
    Tag.value t = Some (list_byte_of_string "05") /\
    py_slice_from ([x02; x01; x05] ++ [x02; x01; x07]) (Header.total_octets h)
    = [x02; x01; x07].
Proof.
  destruct (X15_first_unit_of_a_sequence [x02; x01; x05] [x02; x01; x07]
              (Header.mk 0 2 1 2 1 1 3 0) eq_refl eq_refl)
    as (h & t1 & t & Hh & _ & Hshort & _ & Ht1 & _ & Ht & Hhd & Hv & _ & _
        & Hrest).
  exists h, t. split; [exact Hh|].
  split; [exact (proj2 (Hshort eq_refl))|].
  split; [exact Ht|]. split; [exact Hhd|]. split; [|exact Hrest].
  rewrite Hv. apply Ok_inj in Ht1. rewrite <- Ht1. reflexivity.
Defined.

(** ** [get_bit] *)

(** X16: for an index that is not negative, [get_bit(number, index)] is the
    bit of that index in the binary form of [number], 1 or 0, for negative
    numbers too (in two's complement); the type [tag_type_decode] returns is
    bit 5 of the first octet in this sense. *)
Theorem X16_get_bit_is_testbit :
  forall number index : Z,
    0 <= index ->
    get_bit number index = int_of_bool (Z.testbit number index) /\
    (get_bit number index = 0 \/ get_bit number index = 1) /\
    (forall (c : byte) (rest : bytestr),
        tag_type_decode (c :: rest) = Ok (get_bit (ord c) 5)).
Proof.
  intros number index Hi.
  assert (Hbit : forall n i, 0 <= i ->
                   get_bit n i = int_of_bool (Z.testbit n i)).
  { intros n i Hi'. unfold get_bit. rewrite Z.shiftl_1_l.
    destruct (Z.testbit n i) eqn:T.
    - destruct (Z.land n (2 ^ i) =? 0) eqn:E; [|reflexivity].
      apply Z.eqb_eq in E.
      assert (Hc : Z.testbit (Z.land n (2 ^ i)) i = true)
        by (rewrite Z.land_spec, T, Z.pow2_bits_true by lia; reflexivity).
      rewrite E, Z.bits_0 in Hc. discriminate.
    - assert (E : Z.land n (2 ^ i) = 0).
      { apply Z.bits_inj'. intros j Hj.
        rewrite Z.land_spec, Z.bits_0, Z.pow2_bits_eqb by lia.
        destruct (Z.eqb_spec i j) as [<-|]; [rewrite T; reflexivity|].
        apply andb_false_r. }
      rewrite E. reflexivity. }
  split; [apply Hbit; assumption|]. split.
  - rewrite Hbit by assumption. destruct (Z.testbit number index); auto.
  - intros c rest. rewrite tag_type_decode_cons, constructed_bit.
    rewrite Hbit by lia. reflexivity.
Qed.

Lemma X16_witness :
  get_bit 48 5 = 1 /\ get_bit (-1) 70 = 1 /\ get_bit 2 5 = 0.
Proof.
  split; [|split].
  - rewrite (proj1 (X16_get_bit_is_testbit 48 5 ltac:(lia))). reflexivity.
  - rewrite (proj1 (X16_get_bit_is_testbit (-1) 70 ltac:(lia))). reflexivity.
  - rewrite (proj1 (X16_get_bit_is_testbit 2 5 ltac:(lia))). reflexivity.
Defined.

(** ** Tags without content *)

(** X17: a tag whose header has [data_length = 0] is decoded with the empty
    string as its value, whatever follows the header in the buffer. This is
    the case of every indefinite-length tag (first length octet 0x80): the
    bytes after its header are never loaded into the tag. *)
Theorem X17_empty_value :
  forall (buf : bytestr) (h : Header.t),
    Header.init buf = Ok h ->
    (Header.data_length h = 0 ->
     exists t, Tag.of_bytes buf = Ok t /\ Tag.value t = Some []) /\
    (py_index buf (Header.identifier_octets h) = Ok x80 ->
     Header.data_length h = 0 /\
     Header.extra_data_length h = len buf - Header.octets h /\
     exists t, Tag.of_bytes buf = Ok t /\ Tag.value t = Some []).
Proof.
  intros buf h H.
  pose proof (Header_init_bounds _ _ H) as (Hoct & Hd & Hsum).
  assert (Hempty : Header.data_length h = 0 ->
            exists t, Tag.of_bytes buf = Ok t /\ Tag.value t = Some []).
  { intros Hz. exists (decoded_tag buf h).
    split; [apply Tag_of_bytes_Ok; assumption|].
    unfold decoded_tag. cbn [Tag.value].
    assert (Hnil : py_slice buf (Header.octets h) (Header.total_octets h) = []).
    { apply length_zero_iff_nil.
      pose proof (py_slice_len buf (Header.octets h) (Header.total_octets h)
                    ltac:(lia) ltac:(lia)) as Hlen.
      unfold len in Hlen. lia. }
    rewrite Hnil. destruct (Header.type h =? 0); reflexivity. }
  split; [exact Hempty|].
  intros Hl.
  destruct (Header_init_inv _ _ H)
    as (c & rest & l & _ & _ & _ & Hl' & _ & Hform).
  rewrite Hl in Hl'. apply Ok_inj in Hl'. subst l.
  unfold indefinite_form, long_form, short_form in Hform.
  change (ord x80) with 128 in Hform.
  destruct Hform as [F|[F|F]]; try lia.
  destruct F as (_ & _ & _ & Hz & He).
  split; [exact Hz|]. split; [exact He|]. apply Hempty. exact Hz.
Qed.

Lemma X17_witness :
  exists t,
    Tag.of_bytes [x30; x80; x02; x01; x05; x00; x00] = Ok t /\
    Tag.value t = Some [].
Proof.
  destruct (X17_empty_value [x30; x80; x02; x01; x05; x00; x00]
              (Header.mk 1 16 1 2 1 0 2 5) eq_refl)
    as [_ Hind].
  destruct (Hind eq_refl) as (_ & _ & t & Ht & Hv).
  exists t. split; [exact Ht | exact Hv].
Defined.
